(** * Candidate selection and combinatorial reconstruction: a shallow embedding

    Two analysis tasks are embedded here:

    - [HfCandidateSelectorBplusToD0Pi]
      (PWGHF/TableProducer/candidateSelectorBplusToD0Pi.cxx), the cascading
      selector that writes one status bitmask per B+ candidate;
    - [k1analysis] (PWGLF/Tasks/k1analysis.cxx), the pair and triple
      enumeration that fills the K(892)0 and K1 histograms.

    Conventions.  [double] and [float] columns and thresholds are rationals
    ([Q]): the embedded code only compares them, subtracts them and takes
    absolute values.  [int] quantities are integers ([Z]).  A C++ body is a
    computation of type [Run E R A]: it appends events of type [E] (table
    rows written, histogram fills, evaluated checks) to a log and ends by
    falling through with a value, by leaving early ([return], [continue]), or
    by a fault (an [operator[]] outside the vector). *)

From Stdlib Require Import ZArith QArith Qabs List String Bool Lia.
Import ListNotations.

#[local] Open Scope Z_scope.

(** ** Comparisons on rationals, as booleans *)

(** [x < y] *)
Definition Qltb (x y : Q) : bool := negb (Qle_bool y x).

(** [x > y] *)
Definition Qgtb (x y : Q) : bool := Qltb y x.

(** ** Control flow of a C++ body *)

Inductive Flow (R A : Type) : Type :=
| Next (a : A)   (* control reaches the next statement *)
| Exit (r : R)   (* [return r], or [continue] when [R] is [unit] *)
| Fault.         (* undefined behaviour: index outside a vector *)

Arguments Next {R A} a.
Arguments Exit {R A} r.
Arguments Fault {R A}.

Definition Run (E R A : Type) : Type := (list E * Flow R A)%type.

Definition pure {E R A} (a : A) : Run E R A := ([], Next a).

Definition emit {E R} (e : E) : Run E R unit := ([e], Next tt).

Definition exit {E R A} (r : R) : Run E R A := ([], Exit r).

Definition fault {E R A} : Run E R A := ([], Fault).

Definition bind {E R A B} (c : Run E R A) (k : A -> Run E R B) : Run E R B :=
  match c with
  | (l, Next a) => let (l', f) := k a in (l ++ l', f)
  | (l, Exit r) => (l, Exit r)
  | (l, Fault) => (l, Fault)
  end.

Declare Scope cxx_scope.
Delimit Scope cxx_scope with cxx.

Notation "x <- c ;; k" := (bind c (fun x => k))
  (at level 100, c at next level, right associativity) : cxx_scope.
Notation "c ;; k" := (bind c (fun _ => k))
  (at level 100, right associativity) : cxx_scope.

#[local] Open Scope cxx_scope.

(** [if (b) { c }] *)
Definition when {E R} (b : bool) (c : Run E R unit) : Run E R unit :=
  if b then c else pure tt.

(** A call of a function whose body is [c], and one iteration of a loop
    whose body is [c]: an early exit of the body ends the body only. *)
Definition call {E R R'} (c : Run E R R) : Run E R' R :=
  match c with
  | (l, Next r) => (l, Next r)
  | (l, Exit r) => (l, Next r)
  | (l, Fault) => (l, Fault)
  end.

(** [for (auto& a : l) { body }] *)
Fixpoint for_each {E R A} (l : list A) (body : A -> Run E unit unit)
  : Run E R unit :=
  match l with
  | [] => pure tt
  | a :: l' => call (body a) ;; for_each l' body
  end.

(** [vec[i]] for an [int] index [i]. *)
Definition at_ {E R} (v : list Q) (i : Z) : Run E R Q :=
  if i <? 0 then fault
  else match nth_error v (Z.to_nat i) with
       | Some x => pure x
       | None => fault
       end.

Definition events {E R A} (c : Run E R A) : list E := fst c.

Definition outcome {E R A} (c : Run E R A) : Flow R A := snd c.

(** ** HfCandidateSelectorBplusToD0Pi *)

Module HfSel.

(** Rows of the input tables, with the columns the selector reads. *)

(** [soa::Join<aod::HfCand2Prong, aod::HfSelD0>]: the D0 daughter.  The two
    mass hypotheses are computed by [invMassD0barToKPi] and [invMassD0ToPiK]
    of the data model; the row carries their values. *)
Module HfCandD0.
Record t := { invMassD0barToKPi : Q; invMassD0ToPiK : Q }.
End HfCandD0.

(** [TracksPIDWithSel]: the pion daughter. *)
Module Track.
Record t := { pt : Q; sign : Z }.
End Track.

(** [aod::HfCandBplus]; [prong0] and [prong1] are the rows that
    [prong0_as] and [prong1_as] dereference. *)
Module HfCandBplus.
Record t := {
  pt : Q;
  hfflag : Z;
  impactParameterProduct : Q;
  decayLength : Q;
  decayLengthXY : Q;
  cpa : Q;
  impactParameter0 : Q;
  impactParameter1 : Q;
  prong0 : HfCandD0.t;
  prong1 : Track.t
}.
End HfCandBplus.

(** The configurables that [selectionTopol], [selectionPID] and [process]
    read.  [cuts] is the accessor [cuts->get(pTBin, label)] of the
    [LabeledArray]. *)
Record Configurables := {
  usePid : bool;
  acceptPIDNotApplicable : bool;
  binsPt : list Q;
  cuts : Z -> string -> Q;
  activateQA : bool
}.

(** [SelectionStep], numbered as the comments of [process] give it
    ("RecoSkims = 0 --> statusBplus = 1", "RecoTopol = 1", "RecoPID = 2"). *)
Definition RecoSkims : Z := 0.
Definition RecoTopol : Z := 1.
Definition RecoPID : Z := 2.

(** Modelled from the spec: the macro [SETBIT] comes from an absent header.
    The status is "an integer bitmask over an ordered set of named stages",
    and the comments of [process] give 1, 3 and 7 as its successive values. *)
Definition SETBIT (n i : Z) : Z := Z.lor n (Z.shiftl 1 i).

(** Modelled from the spec: [TrackSelectorPID::Status] is declared in
    Common/Core/TrackSelectorPID.h, which is absent.  The spec names
    Accepted, Rejected and NotApplicable, the help text of
    [acceptPIDNotApplicable] names Conditional as well.  Only the
    distinctness of the four codes matters below. *)
Inductive Status := PIDNotApplicable | PIDRejected | PIDConditional | PIDAccepted.

(** Modelled from the spec: the integer codes of [TrackSelectorPID::Status],
    one per enumerator, pairwise different. *)
Definition code (s : Status) : Z :=
  match s with
  | PIDNotApplicable => 0
  | PIDRejected => 1
  | PIDConditional => 2
  | PIDAccepted => 3
  end.

(** Modelled from the spec: [findBin] is defined in an absent header.  "Looks
    up the pT bin containing pt among an ordered sequence of bin edges;
    returns a sentinel not found (bin = -1) if pt is outside all edges", with
    half-open intervals [[edge_i, edge_{i+1})]. *)
Fixpoint findBinFrom (i : Z) (edges : list Q) (value : Q) : Z :=
  match edges with
  | lo :: ((hi :: _) as rest) =>
      if Qle_bool lo value && Qltb value hi then i
      else findBinFrom (i + 1) rest value
  | _ => -1
  end.

(** Modelled from the spec: [findBin], the scan started at bin 0. *)
Definition findBin (edges : list Q) (value : Q) : Z := findBinFrom 0 edges value.

(** The checks of [selectionTopol]. *)
Inductive TopolCheck :=
| Cut (label : string)   (* a comparison with [cuts->get(pTBin, label)] *)
| MassD0barToKPi         (* the D0bar mass window, line 149 *)
| MassD0ToPiK.           (* the D0 mass window, line 154 *)

(** What the selector does that can be observed from outside. *)
Inductive Event :=
| Checked (c : TopolCheck)       (* [selectionTopol] evaluates a check *)
| PidStatus (trackPi : Track.t)  (* [selectorPion.getStatusTrackPIDTpcAndTof(trackPi)] *)
| Fill (bin : Z) (pt : Q)        (* [registry.fill(HIST("hSelections"), bin, pt)] *)
| HfSelBplusToD0Pi (status : Z). (* [hfSelBplusToD0PiCandidate(status)] *)

(** [init], lines 95-119: the consistency flag, from the values of the
    options [selectionFlagD0] and [selectionFlagD0bar] of the creator
    (-1 when the device or the option is not found). *)
Definition init_selectionFlagDAndUsePidInSync
    (usePid : bool) (selectionFlagD0 selectionFlagD0bar : Z) : bool :=
  let inSync := true in
  let inSync :=
    if (usePid && (selectionFlagD0 =? 0)) || (usePid && (selectionFlagD0bar =? 0))
    then false else inSync in
  let inSync :=
    if (negb usePid && negb (selectionFlagD0 =? 0))
       || (negb usePid && negb (selectionFlagD0bar =? 0))
    then false else inSync in
  inSync.

Section Task.

(** [RecoDecay::getMassPDG(pdg::Code::kD0)] *)
Variable massD0 : Q.
(** [hf_cand_bplus::DecayType::BplusToD0Pi] *)
Variable BplusToD0Pi : Z.
(** [selectorPion.getStatusTrackPIDTpcAndTof] *)
Variable getStatusTrackPIDTpcAndTof : Track.t -> Z.

Variable cfg : Configurables.
Variable selectionFlagDAndUsePidInSync : bool.

(** Lines 128-197. *)
Definition selectionTopol (hfCandBplus : HfCandBplus.t)
    (hfCandD0 : HfCandD0.t) (trackPi : Track.t) : Run Event bool bool :=
  let candpT := HfCandBplus.pt hfCandBplus in
  let pTBin := findBin (binsPt cfg) candpT in
  when (pTBin =? -1) (exit false) ;;
  (* pi pt *)
  emit (Checked (Cut "pT Pi")) ;;
  when (Qltb (Track.pt trackPi) (cuts cfg pTBin "pT Pi")) (exit false) ;;
  (* d0(D0)xd0(pi) *)
  emit (Checked (Cut "Imp. Par. Product")) ;;
  when (Qgtb (HfCandBplus.impactParameterProduct hfCandBplus)
             (cuts cfg pTBin "Imp. Par. Product")) (exit false) ;;
  (* D0 mass *)
  when (Track.sign trackPi >? 0) (
    emit (Checked MassD0barToKPi) ;;
    when (Qgtb (Qabs (HfCandD0.invMassD0barToKPi hfCandD0 - massD0))
               (cuts cfg pTBin "DeltaMD0")) (exit false)) ;;
  when (Track.sign trackPi <? 0) (
    emit (Checked MassD0ToPiK) ;;
    when (Qgtb (Qabs (HfCandD0.invMassD0ToPiK hfCandD0 - massD0))
               (cuts cfg pTBin "DeltaMD0")) (exit false)) ;;
  (* B Decay length *)
  emit (Checked (Cut "B decLen")) ;;
  when (Qltb (HfCandBplus.decayLength hfCandBplus)
             (cuts cfg pTBin "B decLen")) (exit false) ;;
  (* B Decay length XY *)
  emit (Checked (Cut "B decLenXY")) ;;
  when (Qltb (HfCandBplus.decayLengthXY hfCandBplus)
             (cuts cfg pTBin "B decLenXY")) (exit false) ;;
  (* B+ CPA cut *)
  emit (Checked (Cut "CPA")) ;;
  when (Qltb (HfCandBplus.cpa hfCandBplus) (cuts cfg pTBin "CPA")) (exit false) ;;
  (* d0 of D0 and pi *)
  emit (Checked (Cut "d0 D0")) ;;
  when (Qltb (Qabs (HfCandBplus.impactParameter0 hfCandBplus))
             (cuts cfg pTBin "d0 D0")) (exit false) ;;
  emit (Checked (Cut "d0 Pi")) ;;
  when (Qltb (Qabs (HfCandBplus.impactParameter1 hfCandBplus))
             (cuts cfg pTBin "d0 Pi")) (exit false) ;;
  exit true.

(** Lines 203-213. *)
Definition selectionPID (pidTrackPi : Z) : bool :=
  if negb (acceptPIDNotApplicable cfg) && negb (pidTrackPi =? code PIDAccepted)
  then false
  else if acceptPIDNotApplicable cfg && (pidTrackPi =? code PIDRejected)
  then false
  else true.

(** Lines 218-270: the body of the loop over the B+ candidates. *)
Definition processCandidate (hfCandB : HfCandBplus.t) : Run Event unit unit :=
  let statusBplus := 0 in
  let ptCandB := HfCandBplus.pt hfCandB in
  (* check if flagged as B+ --> D0bar Pi *)
  when (Z.land (HfCandBplus.hfflag hfCandB) (Z.shiftl 1 BplusToD0Pi) =? 0) (
    emit (HfSelBplusToD0Pi statusBplus) ;;
    exit tt) ;;
  let statusBplus := SETBIT statusBplus RecoSkims in
  when (activateQA cfg) (emit (Fill (2 + RecoSkims) ptCandB)) ;;
  (* D0 is always index0 and pi is index1 by default *)
  let candD0 := HfCandBplus.prong0 hfCandB in
  let trackPi := HfCandBplus.prong1 hfCandB in
  (* topological cuts *)
  passed <- call (selectionTopol hfCandB candD0 trackPi) ;;
  when (negb passed) (
    emit (HfSelBplusToD0Pi statusBplus) ;;
    exit tt) ;;
  let statusBplus := SETBIT statusBplus RecoTopol in
  when (activateQA cfg) (emit (Fill (2 + RecoTopol) ptCandB)) ;;
  (* checking if selectionFlagD0(D0bar) and usePid are in sync *)
  when (negb selectionFlagDAndUsePidInSync) (
    emit (HfSelBplusToD0Pi statusBplus) ;;
    exit tt) ;;
  (* track-level PID selection *)
  statusBplus <-
    (if usePid cfg then
       emit (PidStatus trackPi) ;;
       let pidTrackPi := getStatusTrackPIDTpcAndTof trackPi in
       when (negb (selectionPID pidTrackPi)) (
         emit (HfSelBplusToD0Pi statusBplus) ;;
         exit tt) ;;
       let statusBplus := SETBIT statusBplus RecoPID in
       when (activateQA cfg) (emit (Fill (2 + RecoPID) ptCandB)) ;;
       pure statusBplus
     else pure statusBplus) ;;
  emit (HfSelBplusToD0Pi statusBplus).

(** Lines 215-271. *)
Definition process (hfCandBs : list HfCandBplus.t) : Run Event unit unit :=
  for_each hfCandBs processCandidate.

End Task.

(** The rows written to the output table, in order. *)
Definition rows (l : list Event) : list Z :=
  flat_map (fun e => match e with HfSelBplusToD0Pi s => [s] | _ => [] end) l.

(** The checks that [selectionTopol] evaluated, in order. *)
Definition checks (l : list Event) : list TopolCheck :=
  flat_map (fun e => match e with Checked c => [c] | _ => [] end) l.


End HfSel.

(** ** k1analysis *)

Module K1.

(** [aod::ResoTracks], joined with [aod::ResoMCTracks] when [IsMC]. *)
Module Track.
Record t := {
  index : Z;
  sign : Z;
  pt : Q;
  px : Q;
  py : Q;
  pz : Q;
  dcaXY : Q;
  dcaZ : Q;
  tpcNSigmaPi : Q;
  tpcNSigmaKa : Q;
  tofNSigmaPi : Q;
  tofNSigmaKa : Q;
  tofPIDselectionFlag : Z;
  pdgCode : Z;
  motherId : Z;
  motherPDG : Z
}.
End Track.

(** [aod::ResoCollision] *)
Module Collision.
Record t := { multV0M : Q }.
End Collision.

Record Configurables := {
  cMinPtcut : Q;
  cMaxDCArToPVcut : Q;
  cMaxDCAzToPVcut : Q;
  cMinDCAzToPVcut : Q;
  cMaxTPCnSigmaPion : Q;
  cMaxTPCnSigmaPion_bach : Q;
  cMaxTOFnSigmaPion : Q;
  cMaxTOFnSigmaPion_bach : Q;
  kaonTPCPIDpTintv : list Q;
  kaonTPCPIDcuts : list Q;
  kaonTOFPIDpTintv : list Q;
  kaonTOFPIDcuts : list Q;
  cDoTOFPID : Z;
  cK892masswindow : Q;
  cPiPiMin : Q;
  cPiPiMax : Q;
  cK1MaxRap : Q;
  cK1MinRap : Q
}.

(** What [k1analysis] takes from ROOT and from the data model: the
    [TLorentzVector] operations it calls, the particle masses and codes of
    [TDatabasePDG] and [TPDGCode], and the TOF bit of the resonance tables. *)
Record Externals := {
  TLorentzVector : Type;
  SetXYZM : Q -> Q -> Q -> Q -> TLorentzVector;
  plus : TLorentzVector -> TLorentzVector -> TLorentzVector;
  M : TLorentzVector -> Q;
  Pt : TLorentzVector -> Q;
  Rapidity : TLorentzVector -> Q;
  massKa : Q;
  massPi : Q;
  massK892 : Q;
  kPiPlus : Z;
  kKPlus : Z;
  kHasTOF : Z
}.

(** [enum k1Type], [enum k892Type], [enum kMCType] *)
Definition kMatterPos : Z := 1.
Definition kMatterNeg : Z := 2.
Definition kAntiPos : Z := 3.
Definition kAntiNeg : Z := 4.
Definition kMatterPos_Mix : Z := 5.
Definition kMatterNeg_Mix : Z := 6.
Definition kAntiPos_Mix : Z := 7.
Definition kAntiNeg_Mix : Z := 8.
Definition kK892Matter : Z := 1.
Definition kK892Anti : Z := 2.
Definition kRecon : Z := 2.

(** One call [histos.fill(HIST(hist), values...)].  [combo] is not passed to
    the histogram: it records the rows bound to [trk1], [trk2] (and
    [bTrack], inside the third loop) when the call is made. *)
Record Fill := {
  hist : string;
  combo : list Track.t;
  values : list Q
}.

(** [static_cast<int>] of a [size_t] *)
Definition static_cast_int (n : Z) : Z := (n + 2 ^ 31) mod 2 ^ 32 - 2 ^ 31.

(** [for (int i = 0; i < n; i++) { body }], the body updating one flag. *)
Fixpoint for_upto {E R S} (count : nat) (i : Z) (body : Z -> S -> Run E R S)
    (s : S) : Run E R S :=
  match count with
  | O => pure s
  | S count' => s' <- body i s ;; for_upto count' (i + 1) body s'
  end.

Definition for_int {E R S} (n : Z) (body : Z -> S -> Run E R S) (s : S)
  : Run E R S :=
  for_upto (Z.to_nat n) 0 body s.

(** Modelled from the spec: [combinations] and [CombinationsFullIndexPolicy]
    belong to the framework, which is absent.  "Enumerate all ordered pairs
    (a, b) from the two lists"; the source adds that the full index policy
    considers all possible combinations, a row with itself included. *)
Definition CombinationsFullIndexPolicy {A} (t1 t2 : list A) : list (A * A) :=
  list_prod t1 t2.

Section Task.

Variable ext : Externals.
Variable cfg : Configurables.

(** Lines 167-178. *)
Definition trackCut (track : Track.t) : bool :=
  (* basic track cuts *)
  if Qltb (Track.pt track) (cMinPtcut cfg) then false
  else if Qgtb (Track.dcaXY track) (cMaxDCArToPVcut cfg) then false
  else if Qltb (Track.dcaZ track) (cMinDCAzToPVcut cfg)
          || Qgtb (Track.dcaZ track) (cMaxDCAzToPVcut cfg) then false
  else true.

(** Lines 185-189. *)
Definition vKaonTPCPIDpTintv := kaonTPCPIDpTintv cfg.
Definition vKaonTPCPIDcuts := kaonTPCPIDcuts cfg.
Definition vKaonTOFPIDpTintv := kaonTOFPIDpTintv cfg.
Definition vKaonTOFPIDcuts := kaonTOFPIDcuts cfg.
Definition lengthOfkaonTPCPIDpTintv : Z :=
  static_cast_int (Z.of_nat (List.length vKaonTPCPIDpTintv)).

(** Lines 233-240: the TPC loop over the pT breakpoints. *)
Definition kaonTPCPID {R} (trk2ptKa trk2NSigmaKaTPC : Q)
    (isTrk2Selected : bool) : Run Fill R bool :=
  if lengthOfkaonTPCPIDpTintv >? 0 then
    for_int lengthOfkaonTPCPIDpTintv (fun i isTrk2Selected =>
      intv <- at_ vKaonTPCPIDpTintv i ;;
      if Qltb trk2ptKa intv then
        cut <- at_ vKaonTPCPIDcuts i ;;
        if Qgtb (Qabs trk2NSigmaKaTPC) cut then pure false
        else pure isTrk2Selected
      else pure isTrk2Selected) isTrk2Selected
  else pure isTrk2Selected.

(** Lines 243-250: the TOF loop, run when the kaon has a TOF signal. *)
Definition kaonTOFPID {R} (trk2ptKa trk2NSigmaKaTOF : Q)
    (isTrk2Selected : bool) : Run Fill R bool :=
  if lengthOfkaonTPCPIDpTintv >? 0 then
    for_int lengthOfkaonTPCPIDpTintv (fun i isTrk2Selected =>
      intv <- at_ vKaonTOFPIDpTintv i ;;
      if Qltb trk2ptKa intv then
        cut <- at_ vKaonTOFPIDcuts i ;;
        if Qgtb (Qabs trk2NSigmaKaTOF) cut then pure false
        else pure isTrk2Selected
      else pure isTrk2Selected) isTrk2Selected
  else pure isTrk2Selected.

(** Lines 232-251: the kaon identification gate; [tofNSigmaKa] is read
    only when [isTrk2hasTOF]. *)
Definition kaonPID {R} (trk2ptKa trk2NSigmaKaTPC : Q) (isTrk2hasTOF : bool)
    (tofNSigmaKa : Q) (isTrk2Selected : bool) : Run Fill R bool :=
  isTrk2Selected <- kaonTPCPID trk2ptKa trk2NSigmaKaTPC isTrk2Selected ;;
  if isTrk2hasTOF then
    let trk2NSigmaKaTOF := tofNSigmaKa in
    kaonTOFPID trk2ptKa trk2NSigmaKaTOF isTrk2Selected
  else pure isTrk2Selected.

Definition fill {R} (h : string) (c : list Track.t) (v : list Q)
  : Run Fill R unit :=
  emit {| hist := h; combo := c; values := v |}.

Definition hasTOF (track : Track.t) : bool :=
  Z.land (Track.tofPIDselectionFlag track) (kHasTOF ext) =? kHasTOF ext.

(** Lines 308-430: the body of the loop over the bachelor tracks. *)
Definition bachelorBody (IsMC IsMix : bool) (collision : Collision.t)
    (trk1 trk2 : Track.t) (isTrk1hasTOF isK892Anti : bool)
    (lDecayDaughter1 lResonanceK892 : TLorentzVector ext)
    (bTrack : Track.t) : Run Fill unit unit :=
  let here := [trk1; trk2; bTrack] in
  (* ID cut *)
  when ((Track.index bTrack =? Track.index trk1)
        || (Track.index bTrack =? Track.index trk2)) (exit tt) ;;
  (* Track cut *)
  when (negb (trackCut bTrack)) (exit tt) ;;
  let isbTrkSelected := true in
  let bTrkPt := Track.pt bTrack in
  let bTrkTPCnSigmaPi := Track.tpcNSigmaPi bTrack in
  let bTrack_TOFnSigma := (-99)%Q in
  let isbTrkhasTOF := false in
  let isbTrkhasTOF := if hasTOF bTrack then true else isbTrkhasTOF in
  (* PID selection *)
  let isbTrkSelected :=
    if Qgtb (Qabs bTrkTPCnSigmaPi) (cMaxTPCnSigmaPion_bach cfg) then false
    else isbTrkSelected in
  let doTOF := negb (cDoTOFPID cfg =? 0) && isbTrkhasTOF in
  let bTrack_TOFnSigma :=
    if doTOF then Track.tofNSigmaPi bTrack else bTrack_TOFnSigma in
  let isbTrkSelected :=
    if doTOF && Qgtb (Qabs bTrack_TOFnSigma) (cMaxTOFnSigmaPion_bach cfg)
    then false else isbTrkSelected in
  when (negb IsMix) (
    fill "QAbefore/trkpT_pi_bach" here [bTrkPt] ;;
    fill "QAbefore/TPC_Nsigma_pi_bach" here [bTrkPt; bTrkTPCnSigmaPi] ;;
    when isTrk1hasTOF (
      fill "QAbefore/TOF_Nsigma_pi_bach" here [bTrkPt; bTrack_TOFnSigma] ;;
      fill "QAbefore/TOF_TPC_Map_pi_bach" here [bTrack_TOFnSigma; bTrkTPCnSigmaPi])) ;;
  (* bachelor track selection *)
  when (negb isbTrkSelected) (exit tt) ;;
  when (negb IsMix) (
    fill "QAafter/trkpT_pi_bach" here [bTrkPt] ;;
    fill "QAafter/TPC_Nsigma_pi_bach" here [bTrkPt; bTrkTPCnSigmaPi] ;;
    when isTrk1hasTOF (
      fill "QAafter/TOF_Nsigma_pi_bach" here [bTrkPt; bTrack_TOFnSigma] ;;
      fill "QAafter/TOF_TPC_Map_pi_bach" here [bTrack_TOFnSigma; bTrkTPCnSigmaPi])) ;;
  (* K1 reconstruction *)
  let lDecayDaughter_bach :=
    SetXYZM ext (Track.px bTrack) (Track.py bTrack) (Track.pz bTrack) (massPi ext) in
  let lResonanceK1 := plus ext lResonanceK892 lDecayDaughter_bach in
  (* Rapidity cut *)
  when (Qgtb (Rapidity ext lResonanceK1) (cK1MaxRap cfg)
        || Qltb (Rapidity ext lResonanceK1) (cK1MinRap cfg)) (exit tt) ;;
  let tempPiPi := plus ext lDecayDaughter1 lDecayDaughter_bach in
  when (negb IsMix) (
    fill "QAMCbefore/InvMass_piK_pipi" here
      [M ext lResonanceK892; M ext tempPiPi]) ;;
  when (Qltb (M ext tempPiPi) (cPiPiMin cfg)
        || Qgtb (M ext tempPiPi) (cPiPiMax cfg)) (exit tt) ;;
  let k1 (type : Z) :=
    fill "THnK1invmass" here
      [inject_Z type; Collision.multV0M collision;
       Pt ext lResonanceK1; M ext lResonanceK1] in
  let quick := fill (R := unit) "k1invmass" here [M ext lResonanceK1] in
  (if negb IsMix then
     if Track.sign bTrack >? 0 then
       (* bachelor pi+ *)
       if negb isK892Anti then quick ;; k1 kMatterPos else k1 kAntiPos
     else
       (* bachelor pi- *)
       if negb isK892Anti then k1 kMatterNeg else quick ;; k1 kAntiNeg
   else
     if Track.sign bTrack >? 0 then
       if negb isK892Anti then quick ;; k1 kMatterPos_Mix else k1 kAntiPos_Mix
     else
       if negb isK892Anti then k1 kMatterNeg_Mix else quick ;; k1 kAntiNeg_Mix) ;;
  (* MC *)
  when IsMC (
    when (negb (Z.abs (Track.pdgCode trk1) =? kPiPlus ext)
          || negb (Z.abs (Track.pdgCode trk2) =? kKPlus ext)) (exit tt) ;;
    let mother1 := Track.motherId trk1 in
    let mother2 := Track.motherId trk2 in
    when (mother1 =? mother2) (
      when (Z.abs (Track.motherPDG trk1) =? 313) (
        fill "hReconK892pt" here [Pt ext lResonanceK892] ;;
        when (negb (Z.abs (Track.pdgCode bTrack) =? kPiPlus ext)) (exit tt) ;;
        when (Z.abs (Track.motherPDG bTrack) =? 10323) (
          fill "hReconK1pt" here [Pt ext lResonanceK1] ;;
          fill "THnK1invmassMC" here
            [inject_Z kRecon; Collision.multV0M collision;
             Pt ext lResonanceK1; M ext lResonanceK1] ;;
          fill "QAMCafter/InvMass_piK_pipi" here
            [M ext lResonanceK892; M ext tempPiPi])))).

(** Lines 190-431: the body of the loop over the pairs. *)
Definition pairBody (IsMC IsMix : bool) (collision : Collision.t)
    (dTracks1 : list Track.t) (pair : Track.t * Track.t)
  : Run Fill unit unit :=
  let (trk1, trk2) := pair in
  let here := [trk1; trk2] in
  (* Full index policy is needed to consider all possible combinations *)
  when (Track.index trk1 =? Track.index trk2) (exit tt) ;;
  (* always choose opposite sign pairs *)
  when (Track.sign trk1 * Track.sign trk2 >? 0) (exit tt) ;;
  let isK892Anti := false in
  (* Trk1: Pion, Trk2: Kaon *)
  let isTrk1Selected := true in
  let isTrk2Selected := true in
  let isTrk1hasTOF := false in
  let isTrk2hasTOF := false in
  let trk1ptPi := Track.pt trk1 in
  let trk1NSigmaPiTPC := Track.tpcNSigmaPi trk1 in
  let trk1NSigmaPiTOF := (-999)%Q in
  let trk2ptKa := Track.pt trk2 in
  let trk2NSigmaKaTPC := Track.tpcNSigmaKa trk2 in
  let trk2NSigmaKaTOF := (-999)%Q in
  (* apply the track cut *)
  when (negb (trackCut trk1)) (exit tt) ;;
  when (negb (trackCut trk2)) (exit tt) ;;
  (* hasTOF? *)
  let isTrk1hasTOF := if hasTOF trk1 then true else isTrk1hasTOF in
  let isTrk2hasTOF := if hasTOF trk2 then true else isTrk2hasTOF in
  (* For Pion candidate, we don't need to apply pT-dependent PID cuts *)
  let isTrk1Selected :=
    if Qgtb (Qabs trk1NSigmaPiTPC) (cMaxTPCnSigmaPion cfg) then false
    else isTrk1Selected in
  let trk1NSigmaPiTOF :=
    if isTrk1hasTOF then Track.tofNSigmaPi trk1 else trk1NSigmaPiTOF in
  let isTrk1Selected :=
    if isTrk1hasTOF && Qgtb (Qabs trk1NSigmaPiTOF) (cMaxTOFnSigmaPion cfg)
    then false else isTrk1Selected in
  (* For Kaon candidate, we need to apply pT-dependent PID cuts *)
  let trk2NSigmaKaTOF :=
    if isTrk2hasTOF then Track.tofNSigmaKa trk2 else trk2NSigmaKaTOF in
  isTrk2Selected <-
    kaonPID trk2ptKa trk2NSigmaKaTPC isTrk2hasTOF (Track.tofNSigmaKa trk2)
      isTrk2Selected ;;
  (* QA plots before the selection *)
  when (negb IsMix) (
    fill "QAbefore/TPC_Nsigma_pi" here [trk1ptPi; trk1NSigmaPiTPC] ;;
    when isTrk1hasTOF (
      fill "QAbefore/TOF_Nsigma_pi" here [trk1ptPi; trk1NSigmaPiTOF] ;;
      fill "QAbefore/TOF_TPC_Map_pi" here [trk1NSigmaPiTOF; trk1NSigmaPiTPC]) ;;
    fill "QAbefore/TPC_Nsigmaka" here [trk2ptKa; trk2NSigmaKaTPC] ;;
    when isTrk1hasTOF (
      fill "QAbefore/TOF_Nsigma_ka" here [trk2ptKa; trk2NSigmaKaTOF] ;;
      fill "QAbefore/TOF_TPC_Map_ka" here [trk2NSigmaKaTOF; trk2NSigmaKaTPC]) ;;
    fill "QAbefore/trkpT_pi" here [trk1ptPi] ;;
    fill "QAbefore/trkpT_ka" here [trk2ptKa]) ;;
  (* Apply the selection *)
  when (negb isTrk1Selected || negb isTrk2Selected) (exit tt) ;;
  (* QA plots after the selection *)
  when (negb IsMix) (
    fill "QAafter/TPC_Nsigma_pi" here [trk1ptPi; trk1NSigmaPiTPC] ;;
    when isTrk1hasTOF (
      fill "QAafter/TOF_Nsigma_pi" here [trk1ptPi; trk1NSigmaPiTOF] ;;
      fill "QAafter/TOF_TPC_Map_pi" here [trk1NSigmaPiTOF; trk1NSigmaPiTPC]) ;;
    fill "QAafter/TPC_Nsigmaka" here [trk2ptKa; trk2NSigmaKaTPC] ;;
    when isTrk1hasTOF (
      fill "QAafter/TOF_Nsigma_ka" here [trk2ptKa; trk2NSigmaKaTOF] ;;
      fill "QAafter/TOF_TPC_Map_ka" here [trk2NSigmaKaTOF; trk2NSigmaKaTPC]) ;;
    fill "QAafter/trkpT_pi" here [trk1ptPi] ;;
    fill "QAafter/trkpT_ka" here [trk2ptKa]) ;;
  (* Resonance reconstruction *)
  let lDecayDaughter1 :=
    SetXYZM ext (Track.px trk1) (Track.py trk1) (Track.pz trk1) (massPi ext) in
  let lDecayDaughter2 :=
    SetXYZM ext (Track.px trk2) (Track.py trk2) (Track.pz trk2) (massKa ext) in
  let lResonanceK892 := plus ext lDecayDaughter1 lDecayDaughter2 in
  let isK892Anti := if Track.sign trk2 >? 0 then true else isK892Anti in
  when (negb IsMix) (
    fill "k892invmass" here [M ext lResonanceK892] ;;
    fill "THnK892invmass" here
      [inject_Z (if isK892Anti then kK892Anti else kK892Matter);
       Collision.multV0M collision;
       Pt ext lResonanceK892; M ext lResonanceK892]) ;;
  (* Mass window cut *)
  when (Qgtb (Qabs (M ext lResonanceK892 - massK892 ext)) (cK892masswindow cfg))
    (exit tt) ;;
  (* Add one more track loop for K1 reconstruction *)
  for_each dTracks1
    (bachelorBody IsMC IsMix collision trk1 trk2 isTrk1hasTOF isK892Anti
       lDecayDaughter1 lResonanceK892).

(** Lines 181-432. *)
Definition fillHistograms (IsMC IsMix : bool) (collision : Collision.t)
    (dTracks1 dTracks2 : list Track.t) : Run Fill unit unit :=
  for_each (CombinationsFullIndexPolicy dTracks2 dTracks2)
    (pairBody IsMC IsMix collision dTracks1).

End Task.



End K1.

(** ** Predicates of the statements, and concrete inputs *)

(** Every event logged by [c] satisfies [P]. *)
Definition always {E R A} (P : E -> Prop) (c : Run E R A) : Prop :=
  Forall P (events c).


Module HfSelSpec.
Import HfSel.

(** Bit [k] set implies every lower bit set. *)
Definition prefixSet (s : Z) : Prop :=
  forall k j, 0 <= j < k -> Z.testbit s k = true -> Z.testbit s j = true.



Definition onlyChecks (l : list Event) : Prop :=
  Forall (fun e => exists c, e = Checked c) l.

Definition isPidStatus (e : Event) : bool :=
  match e with PidStatus _ => true | _ => false end.

(** A configuration with two pT bins, [0, 5) and [5, 10), and every cut
    value equal to 1. *)
Definition cfgQA : Configurables := {|
  usePid := true;
  acceptPIDNotApplicable := true;
  binsPt := [0 # 1; 5 # 1; 10 # 1];
  cuts := fun _ _ => 1 # 1;
  activateQA := true
|}.

Definition cfgNoPid : Configurables := {|
  usePid := false;
  acceptPIDNotApplicable := true;
  binsPt := [0 # 1; 5 # 1; 10 # 1];
  cuts := fun _ _ => 1 # 1;
  activateQA := false
|}.

Definition massD0 : Q := 18648 # 10000.

Definition candD0 : HfCandD0.t :=
  {| HfCandD0.invMassD0barToKPi := 18 # 10; HfCandD0.invMassD0ToPiK := 19 # 10 |}.

Definition trackPi : Track.t := {| Track.pt := 2 # 1; Track.sign := 1 |}.

Definition cand (pt : Q) (hfflag : Z) : HfCandBplus.t := {|
  HfCandBplus.pt := pt;
  HfCandBplus.hfflag := hfflag;
  HfCandBplus.impactParameterProduct := 0 # 1;
  HfCandBplus.decayLength := 2 # 1;
  HfCandBplus.decayLengthXY := 2 # 1;
  HfCandBplus.cpa := 1 # 1;
  HfCandBplus.impactParameter0 := 2 # 1;
  HfCandBplus.impactParameter1 := (-2) # 1;
  HfCandBplus.prong0 := candD0;
  HfCandBplus.prong1 := trackPi
|}.

(** Flagged, pT inside the second bin: passes every topological cut. *)
Definition candGood : HfCandBplus.t := cand (7 # 1) 1.
(** Flagged, pT above the last edge. *)
Definition candOutOfRange : HfCandBplus.t := cand (12 # 1) 1.
(** Not flagged as B+ -> D0 pi, all else as [candGood]. *)
Definition candNotFlagged : HfCandBplus.t := cand (7 # 1) 2.

(** Flagged, in range, but the pion is below the pion pT cut. *)
Definition candSoftPion : HfCandBplus.t := {|
  HfCandBplus.pt := 7 # 1;
  HfCandBplus.hfflag := 1;
  HfCandBplus.impactParameterProduct := 0 # 1;
  HfCandBplus.decayLength := 2 # 1;
  HfCandBplus.decayLengthXY := 2 # 1;
  HfCandBplus.cpa := 1 # 1;
  HfCandBplus.impactParameter0 := 2 # 1;
  HfCandBplus.impactParameter1 := (-2) # 1;
  HfCandBplus.prong0 := candD0;
  HfCandBplus.prong1 := {| Track.pt := 1 # 2; Track.sign := 1 |}
|}.

End HfSelSpec.

Module K1Spec.
Import K1.

(** The body shared by the two breakpoint loops (lines 235-238 and
    245-248), over the pT and nSigma lists it indexes. *)
Definition breakpointBody {R} (vIntv vCuts : list Q) (pt nSigma : Q) (i : Z)
    (isTrk2Selected : bool) : Run Fill R bool :=
  intv <- at_ vIntv i ;;
  if Qltb pt intv then
    cut <- at_ vCuts i ;;
    if Qgtb (Qabs nSigma) cut then pure false else pure isTrk2Selected
  else pure isTrk2Selected.

(** Both tracks positive or both negative. *)
Definition sameChargeSign (t1 t2 : Track.t) : Prop :=
  (0 < Track.sign t1 /\ 0 < Track.sign t2)
  \/ (Track.sign t1 < 0 /\ Track.sign t2 < 0).

(** The fill is made for a pair whose daughters do not share a charge sign. *)
Definition oppositeSignPair (f : Fill) : Prop :=
  match combo f with
  | trk1 :: trk2 :: _ =>
      ~ sameChargeSign trk1 trk2 /\ Track.sign trk1 * Track.sign trk2 <= 0
  | _ => False
  end.

(** The fill is made for a pair, or for a pair and a bachelor, whose
    indices are pairwise different. *)
Definition distinctRoles (f : Fill) : Prop :=
  match combo f with
  | [trk1; trk2] => Track.index trk1 <> Track.index trk2
  | [trk1; trk2; bTrack] =>
      Track.index trk1 <> Track.index trk2
      /\ Track.index bTrack <> Track.index trk1
      /\ Track.index bTrack <> Track.index trk2
  | _ => False
  end.






(** A rational stand-in for [TLorentzVector], to run the model on concrete
    tracks: a vector is (px, py, pz, m), vectors add componentwise, [M] is
    the last component, [Pt] is |px| + |py| and [Rapidity] is pz. *)
Definition extQ : Externals := {|
  TLorentzVector := Q * Q * Q * Q;
  SetXYZM := fun x y z m => (x, y, z, m);
  plus := fun '(x, y, z, m) '(x', y', z', m') =>
            (x + x', y + y', z + z', m + m')%Q;
  M := fun '(_, _, _, m) => m;
  Pt := fun '(x, y, _, _) => (Qabs x + Qabs y)%Q;
  Rapidity := fun '(_, _, z, _) => z;
  massKa := 49 # 100;
  massPi := 14 # 100;
  massK892 := 63 # 100;
  kPiPlus := 211;
  kKPlus := 321;
  kHasTOF := 1
|}.

(** The default configuration but for the kaon lists, which are given. *)
Definition cfgWith (tpcIntv tpcCuts tofIntv tofCuts : list Q) : Configurables := {|
  cMinPtcut := 15 # 100;
  cMaxDCArToPVcut := 1 # 2;
  cMaxDCAzToPVcut := 2 # 1;
  cMinDCAzToPVcut := 0 # 1;
  cMaxTPCnSigmaPion := 2 # 1;
  cMaxTPCnSigmaPion_bach := 2 # 1;
  cMaxTOFnSigmaPion := 2 # 1;
  cMaxTOFnSigmaPion_bach := 2 # 1;
  kaonTPCPIDpTintv := tpcIntv;
  kaonTPCPIDcuts := tpcCuts;
  kaonTOFPIDpTintv := tofIntv;
  kaonTOFPIDcuts := tofCuts;
  cDoTOFPID := 1;
  cK892masswindow := 1 # 10;
  cPiPiMin := 0 # 1;
  cPiPiMax := 999 # 1;
  cK1MaxRap := 1 # 2;
  cK1MinRap := (-1) # 2
|}.

(** The default lists: one breakpoint at 999, cut at 2. *)
Definition cfgDefault : Configurables :=
  cfgWith [999 # 1] [2 # 1] [999 # 1] [2 # 1].




Definition track (index sign : Z) : Track.t := {|
  Track.index := index;
  Track.sign := sign;
  Track.pt := 1 # 1;
  Track.px := 1 # 1;
  Track.py := 0 # 1;
  Track.pz := 0 # 1;
  Track.dcaXY := 0 # 1;
  Track.dcaZ := 1 # 10;
  Track.tpcNSigmaPi := 0 # 1;
  Track.tpcNSigmaKa := 0 # 1;
  Track.tofNSigmaPi := 0 # 1;
  Track.tofNSigmaKa := 0 # 1;
  Track.tofPIDselectionFlag := 0;
  Track.pdgCode := 0;
  Track.motherId := 0;
  Track.motherPDG := 0
|}.

Definition collision : Collision.t := {| Collision.multV0M := 10 # 1 |}.

(** Three tracks of one event: +, -, +. *)
Definition tracks : list Track.t := [track 0 1; track 1 (-1); track 2 1].

End K1Spec.

(** ** HfCandidateSelectorBplusToD0Pi: [init] and closed forms *)

Module HfSelInit.
Import HfSel.

(** An option of a device, with the value of [defaultValue.get<int>()]. *)
Module ConfigParamSpec.
Record t := { name : string; defaultValue : Z }.
End ConfigParamSpec.

(** A device of the running workflow. *)
Module DeviceSpec.
Record t := { name : string; options : list ConfigParamSpec.t }.
End DeviceSpec.

(** [init], lines 100-109: the loop over the options of one device. *)
Definition scanOptions (options : list ConfigParamSpec.t) (flags : Z * Z)
  : Z * Z :=
  fold_left
    (fun '(selectionFlagD0, selectionFlagD0bar) option =>
       let selectionFlagD0 :=
         if String.eqb (ConfigParamSpec.name option) "selectionFlagD0"
         then ConfigParamSpec.defaultValue option else selectionFlagD0 in
       let selectionFlagD0bar :=
         if String.eqb (ConfigParamSpec.name option) "selectionFlagD0bar"
         then ConfigParamSpec.defaultValue option else selectionFlagD0bar in
       (selectionFlagD0, selectionFlagD0bar))
    options flags.

(** [init], lines 95-111: the loop over the devices; both flags start at -1. *)
Definition scanDevices (devices : list DeviceSpec.t) : Z * Z :=
  fold_left
    (fun flags device =>
       if String.eqb (DeviceSpec.name device) "hf-candidate-creator-bplus"
       then scanOptions (DeviceSpec.options device) flags
       else flags)
    devices (-1, -1).

(** [init], lines 95-119: the value left in [selectionFlagDAndUsePidInSync]. *)
Definition init_inSync (usePid : bool) (devices : list DeviceSpec.t) : bool :=
  let '(selectionFlagD0, selectionFlagD0bar) := scanDevices devices in
  init_selectionFlagDAndUsePidInSync usePid selectionFlagD0 selectionFlagD0bar.

(** The options with a given name among the devices named as the creator. *)
Definition declared (option : string) (devices : list DeviceSpec.t) : list Z :=
  map ConfigParamSpec.defaultValue
    (filter (fun o => String.eqb (ConfigParamSpec.name o) option)
       (flat_map DeviceSpec.options
          (filter (fun d => String.eqb (DeviceSpec.name d)
                              "hf-candidate-creator-bplus") devices))).

(** All the cuts of [selectionTopol] at once. *)
Definition topolCuts (massD0 : Q) (cfg : Configurables)
    (hfCandBplus : HfCandBplus.t) (hfCandD0 : HfCandD0.t) (trackPi : Track.t)
  : bool :=
  let pTBin := findBin (binsPt cfg) (HfCandBplus.pt hfCandBplus) in
  negb (pTBin =? -1)
  && negb (Qltb (Track.pt trackPi) (cuts cfg pTBin "pT Pi"))
  && negb (Qgtb (HfCandBplus.impactParameterProduct hfCandBplus)
                (cuts cfg pTBin "Imp. Par. Product"))
  && negb ((Track.sign trackPi >? 0)
           && Qgtb (Qabs (HfCandD0.invMassD0barToKPi hfCandD0 - massD0))
                   (cuts cfg pTBin "DeltaMD0"))
  && negb ((Track.sign trackPi <? 0)
           && Qgtb (Qabs (HfCandD0.invMassD0ToPiK hfCandD0 - massD0))
                   (cuts cfg pTBin "DeltaMD0"))
  && negb (Qltb (HfCandBplus.decayLength hfCandBplus) (cuts cfg pTBin "B decLen"))
  && negb (Qltb (HfCandBplus.decayLengthXY hfCandBplus)
                (cuts cfg pTBin "B decLenXY"))
  && negb (Qltb (HfCandBplus.cpa hfCandBplus) (cuts cfg pTBin "CPA"))
  && negb (Qltb (Qabs (HfCandBplus.impactParameter0 hfCandBplus))
                (cuts cfg pTBin "d0 D0"))
  && negb (Qltb (Qabs (HfCandBplus.impactParameter1 hfCandBplus))
                (cuts cfg pTBin "d0 Pi")).

(** The status of one candidate, as a decision table. *)
Definition statusOf (massD0 : Q) (BplusToD0Pi : Z)
    (getStatusTrackPIDTpcAndTof : Track.t -> Z) (cfg : Configurables)
    (inSync : bool) (hfCandB : HfCandBplus.t) : Z :=
  if Z.land (HfCandBplus.hfflag hfCandB) (Z.shiftl 1 BplusToD0Pi) =? 0 then 0
  else if negb (topolCuts massD0 cfg hfCandB (HfCandBplus.prong0 hfCandB)
                  (HfCandBplus.prong1 hfCandB)) then 1
  else if inSync && usePid cfg
          && selectionPID cfg
               (getStatusTrackPIDTpcAndTof (HfCandBplus.prong1 hfCandB))
  then 7
  else 3.

(** The QA fills of a log, in order. *)
Definition qaFills (l : list Event) : list (Z * Q) :=
  flat_map (fun e => match e with Fill bin pt => [(bin, pt)] | _ => [] end) l.

(** The configuration with the QA switch set to [qa]. *)
Definition withQA (qa : bool) (cfg : Configurables) : Configurables := {|
  usePid := usePid cfg;
  acceptPIDNotApplicable := acceptPIDNotApplicable cfg;
  binsPt := binsPt cfg;
  cuts := cuts cfg;
  activateQA := qa
|}.

(** The one mass of the D0 daughter that [selectionTopol] looks at. *)
Definition relevantMass (trackPi : Track.t) (hfCandD0 : HfCandD0.t) : option Q :=
  if Track.sign trackPi >? 0 then Some (HfCandD0.invMassD0barToKPi hfCandD0)
  else if Track.sign trackPi <? 0 then Some (HfCandD0.invMassD0ToPiK hfCandD0)
  else None.

(** A workflow whose creator asks for no D0 selection, one whose creator
    asks for it, and one without creator. *)
Definition creator (d0 d0bar : Z) : DeviceSpec.t := {|
  DeviceSpec.name := "hf-candidate-creator-bplus";
  DeviceSpec.options :=
    [ {| ConfigParamSpec.name := "selectionFlagD0";
         ConfigParamSpec.defaultValue := d0 |};
      {| ConfigParamSpec.name := "selectionFlagD0bar";
         ConfigParamSpec.defaultValue := d0bar |} ]
|}.

Definition otherDevice : DeviceSpec.t := {|
  DeviceSpec.name := "hf-candidate-selector-d0";
  DeviceSpec.options :=
    [ {| ConfigParamSpec.name := "selectionFlagD0";
         ConfigParamSpec.defaultValue := 0 |} ]
|}.

End HfSelInit.

(** ** k1analysis: [init], the MC-truth loop and closed forms *)

Module K1Init.
Import K1.

Inductive HistType := kTH1F | kTH2F | kTHnSparseD.

(** [AxisSpec]: a number of bins between two bounds, or a list of edges. *)
Inductive AxisSpec :=
| FixedAxis (nBins : Z) (lo hi : Q)
| VariableAxis (edges : list Q).

(** One call [histos.add(name, title, type, {axes})]. *)
Module HistSpec.
Record t := { name : string; type : HistType; axes : list AxisSpec }.
End HistSpec.

(** [init], lines 99-109, with the bounds as they are written. *)
Definition centBinning : list Q :=
  [0; 1; 5; 10; 15; 20; 25; 30; 35; 40; 45; 50; 55; 60; 65; 70; 80; 90; 100]%Q.
Definition centAxis : AxisSpec := VariableAxis centBinning.
Definition multAxis : AxisSpec := FixedAxis 0 0 100.
Definition ptAxis : AxisSpec := FixedAxis 200 0 20.
Definition invMassAxis : AxisSpec := FixedAxis 900 (6 # 10) (15 # 10).
Definition invMassAxisReso : AxisSpec := FixedAxis 1600 (9 # 10) (25 # 10).
Definition invMassAxisScan : AxisSpec := FixedAxis 250 0 (25 # 10).
Definition pidQAAxis : AxisSpec := FixedAxis 130 (-65 # 10) (65 # 10).
Definition dataTypeAxis : AxisSpec := FixedAxis 9 0 9.
Definition mcTypeAxis : AxisSpec := FixedAxis 4 0 4.
Definition tempmultAxis : AxisSpec := FixedAxis 3000 0 3000.

Definition add (name : string) (type : HistType) (axes : list AxisSpec)
  : HistSpec.t :=
  {| HistSpec.name := name; HistSpec.type := type; HistSpec.axes := axes |}.

(** [init], lines 111-159: the histograms added to the registry, in order;
    the last five only when [doprocessMC] or [doprocessMCLight] is set. *)
Definition init (doprocessMC doprocessMCLight : bool) : list HistSpec.t :=
  [ (* Mass QA (quick check) *)
    add "k892invmass" kTH1F [invMassAxis];
    add "k1invmass" kTH1F [invMassAxisReso];
    (* pT QA *)
    add "QAbefore/trkpT_pi" kTH1F [ptAxis];
    add "QAbefore/trkpT_ka" kTH1F [ptAxis];
    add "QAbefore/trkpT_pi_bach" kTH1F [ptAxis];
    add "QAafter/trkpT_pi" kTH1F [ptAxis];
    add "QAafter/trkpT_ka" kTH1F [ptAxis];
    add "QAafter/trkpT_pi_bach" kTH1F [ptAxis];
    (* PID QA before cuts *)
    add "QAbefore/TOF_TPC_Map_pi" kTH2F [pidQAAxis; pidQAAxis];
    add "QAbefore/TOF_Nsigma_pi" kTH2F [ptAxis; pidQAAxis];
    add "QAbefore/TPC_Nsigma_pi" kTH2F [ptAxis; pidQAAxis];
    add "QAbefore/TOF_TPC_Map_ka" kTH2F [pidQAAxis; pidQAAxis];
    add "QAbefore/TOF_Nsigma_ka" kTH2F [ptAxis; pidQAAxis];
    add "QAbefore/TPC_Nsigmaka" kTH2F [ptAxis; pidQAAxis];
    add "QAbefore/TOF_TPC_Map_pi_bach" kTH2F [pidQAAxis; pidQAAxis];
    add "QAbefore/TOF_Nsigma_pi_bach" kTH2F [ptAxis; pidQAAxis];
    add "QAbefore/TPC_Nsigma_pi_bach" kTH2F [ptAxis; pidQAAxis];
    (* PID QA after cuts *)
    add "QAafter/TOF_TPC_Map_pi" kTH2F [pidQAAxis; pidQAAxis];
    add "QAafter/TOF_Nsigma_pi" kTH2F [ptAxis; pidQAAxis];
    add "QAafter/TPC_Nsigma_pi" kTH2F [ptAxis; pidQAAxis];
    add "QAafter/TOF_TPC_Map_ka" kTH2F [pidQAAxis; pidQAAxis];
    add "QAafter/TOF_Nsigma_ka" kTH2F [ptAxis; pidQAAxis];
    add "QAafter/TPC_Nsigmaka" kTH2F [ptAxis; pidQAAxis];
    add "QAafter/TOF_TPC_Map_pi_bach" kTH2F [pidQAAxis; pidQAAxis];
    add "QAafter/TOF_Nsigma_pi_bach" kTH2F [ptAxis; pidQAAxis];
    add "QAafter/TPC_Nsigma_pi_bach" kTH2F [ptAxis; pidQAAxis];
    add "QAMCbefore/InvMass_piK_pipi" kTH2F [invMassAxisScan; invMassAxisScan];
    (* THnSparse for Invariant mass *)
    add "THnK892invmass" kTHnSparseD [dataTypeAxis; tempmultAxis; ptAxis; invMassAxis];
    add "THnK1invmass" kTHnSparseD
      [dataTypeAxis; tempmultAxis; ptAxis; invMassAxisReso] ]
  ++ (if doprocessMC || doprocessMCLight then
        [ (* MC QA *)
          add "THnK1invmassMC" kTHnSparseD
            [dataTypeAxis; tempmultAxis; ptAxis; invMassAxisReso];
          add "hReconK892pt" kTH1F [ptAxis];
          add "hTrueK1pt" kTH1F [ptAxis];
          add "hReconK1pt" kTH1F [ptAxis];
          add "QAMCafter/InvMass_piK_pipi" kTH2F [invMassAxisScan; invMassAxisScan] ]
      else []).

(** [aod::McParticles]; [daughters] holds the [pdgCode] of the rows that
    [daughters_as] dereferences, the one column the loop reads of them. *)
Module McParticle.
Record t := { pdgCode : Z; y : Q; pt : Q; daughters : list Z }.
End McParticle.

(** Lines 504-513 (and 471-480): the loop over the daughters, on the two
    flags [pass1] and [pass2]. *)
Definition daughtersLoop (kPiPlus : Z) (daughters : list Z)
    (pass : bool * bool) : bool * bool :=
  fold_left
    (fun '(pass1, pass2) dau =>
       (* At least one decay to K892(0) *)
       let pass2 := if Z.abs dau =? 313 then true else pass2 in
       (* At least one decay to Pion *)
       let pass1 := if Z.abs dau =? kPiPlus then true else pass1 in
       (pass1, pass2))
    daughters pass.

(** Lines 499-519, and again lines 466-485 at the end of [processMC]: the
    loop over all MC particles. *)
Definition processMCTrue (ext : Externals) (mcParticles : list McParticle.t)
  : Run Fill unit unit :=
  for_each mcParticles (fun part =>
    (* K1 *)
    when (Z.abs (McParticle.pdgCode part) =? 10323) (
      (* rapidity cut *)
      when (Qgtb (McParticle.y part) (1 # 2)
            || Qltb (McParticle.y part) (-1 # 2)) (exit tt) ;;
      let pass1 := false in
      let pass2 := false in
      let '(pass1, pass2) :=
        daughtersLoop (kPiPlus ext) (McParticle.daughters part) (pass1, pass2) in
      (* If we have both decay products *)
      when (negb pass1 || negb pass2) (exit tt) ;;
      fill "hTrueK1pt" [] [McParticle.pt part])).

(** The MC particles for which hTrueK1pt is filled. *)
Definition isTrueK1 (ext : Externals) (part : McParticle.t) : bool :=
  (Z.abs (McParticle.pdgCode part) =? 10323)
  && negb (Qgtb (McParticle.y part) (1 # 2) || Qltb (McParticle.y part) (-1 # 2))
  && existsb (fun dau => Z.abs dau =? kPiPlus ext) (McParticle.daughters part)
  && existsb (fun dau => Z.abs dau =? 313) (McParticle.daughters part).

(** [n] values are filled into a histogram of that name and of [n] axes. *)
Definition registered (registry : list HistSpec.t) (h : string) (n : nat) : bool :=
  existsb (fun spec => String.eqb (HistSpec.name spec) h
                       && Nat.eqb (List.length (HistSpec.axes spec)) n)
    registry.

Definition fillRegistered (registry : list HistSpec.t) (f : Fill) : Prop :=
  registered registry (hist f) (List.length (values f)) = true.

(** The rows of a fill come from the lists they are looped over. *)
Definition fromLists (dTracks1 dTracks2 : list Track.t) (f : Fill) : Prop :=
  match combo f with
  | [trk1; trk2] => In trk1 dTracks2 /\ In trk2 dTracks2
  | [trk1; trk2; bTrack] =>
      In trk1 dTracks2 /\ In trk2 dTracks2 /\ In bTrack dTracks1
  | _ => False
  end.

(** The bounds that [trackCut] enforces. *)
Definition withinCuts (cfg : Configurables) (track : Track.t) : Prop :=
  (cMinPtcut cfg <= Track.pt track
   /\ Track.dcaXY track <= cMaxDCArToPVcut cfg
   /\ cMinDCAzToPVcut cfg <= Track.dcaZ track
   /\ Track.dcaZ track <= cMaxDCAzToPVcut cfg)%Q.

(** The category of a K1 candidate: bachelor sign, kaon sign, mixing. *)
Definition k1Type (IsMix : bool) (bTrack trk2 : Track.t) : Z :=
  let isK892Anti := Track.sign trk2 >? 0 in
  if Track.sign bTrack >? 0 then
    if isK892Anti then (if IsMix then kAntiPos_Mix else kAntiPos)
    else (if IsMix then kMatterPos_Mix else kMatterPos)
  else
    if isK892Anti then (if IsMix then kAntiNeg_Mix else kAntiNeg)
    else (if IsMix then kMatterNeg_Mix else kMatterNeg).

Definition k892Type (trk2 : Track.t) : Z :=
  if Track.sign trk2 >? 0 then kK892Anti else kK892Matter.

(** The first value of a fill of THnK1invmass or THnK892invmass is the
    category of its rows, and the quick check k1invmass is filled for a
    bachelor and a kaon of opposite positivity. *)
Definition tagged (IsMix : bool) (f : Fill) : Prop :=
  (String.eqb (hist f) "THnK1invmass" = true ->
   exists trk1 trk2 bTrack rest,
     combo f = [trk1; trk2; bTrack]
     /\ values f = inject_Z (k1Type IsMix bTrack trk2) :: rest
     /\ 1 <= k1Type IsMix bTrack trk2 <= 8)
  /\ (String.eqb (hist f) "THnK892invmass" = true ->
      exists trk1 trk2 rest,
        combo f = [trk1; trk2]
        /\ values f = inject_Z (k892Type trk2) :: rest)
  /\ (String.eqb (hist f) "k1invmass" = true ->
      exists trk1 trk2 bTrack,
        combo f = [trk1; trk2; bTrack]
        /\ (Track.sign bTrack >? 0) = negb (Track.sign trk2 >? 0)).

(** The histograms filled when [IsMix] is set. *)
Definition mixedHistograms (IsMC : bool) : list string :=
  ["k1invmass"%string; "THnK1invmass"%string]
  ++ (if IsMC
      then ["hReconK892pt"%string; "hReconK1pt"%string;
            "THnK1invmassMC"%string; "QAMCafter/InvMass_piK_pipi"%string]
      else []).

(** The four-vectors of lines 294-296 and 359-360, 366. *)
Definition lResonanceK892 (ext : Externals) (trk1 trk2 : Track.t)
  : TLorentzVector ext :=
  plus ext
    (SetXYZM ext (Track.px trk1) (Track.py trk1) (Track.pz trk1) (massPi ext))
    (SetXYZM ext (Track.px trk2) (Track.py trk2) (Track.pz trk2) (massKa ext)).

Definition lResonanceK1 (ext : Externals) (trk1 trk2 bTrack : Track.t)
  : TLorentzVector ext :=
  plus ext (lResonanceK892 ext trk1 trk2)
    (SetXYZM ext (Track.px bTrack) (Track.py bTrack) (Track.pz bTrack) (massPi ext)).

Definition tempPiPi (ext : Externals) (trk1 bTrack : Track.t)
  : TLorentzVector ext :=
  plus ext
    (SetXYZM ext (Track.px trk1) (Track.py trk1) (Track.pz trk1) (massPi ext))
    (SetXYZM ext (Track.px bTrack) (Track.py bTrack) (Track.pz bTrack) (massPi ext)).

(** Histograms filled after the pion-pair mass cut of line 370. *)
Definition isK1Spectrum (h : string) : bool :=
  existsb (String.eqb h)
    ["k1invmass"%string; "THnK1invmass"%string; "hReconK892pt"%string;
     "hReconK1pt"%string; "THnK1invmassMC"%string;
     "QAMCafter/InvMass_piK_pipi"%string].

(** A fill made inside the bachelor loop is for a pair inside the K(892)0
    mass window; a fill of a K1 spectrum is also for a K1 inside the
    rapidity window and a pion pair inside the pion-pair mass window. *)
Definition insideWindows (ext : Externals) (cfg : Configurables) (f : Fill)
  : Prop :=
  match combo f with
  | [trk1; trk2; bTrack] =>
      Qgtb (Qabs (M ext (lResonanceK892 ext trk1 trk2) - massK892 ext))
           (cK892masswindow cfg) = false
      /\ (isK1Spectrum (hist f) = true ->
          Qgtb (Rapidity ext (lResonanceK1 ext trk1 trk2 bTrack)) (cK1MaxRap cfg)
          = false
          /\ Qltb (Rapidity ext (lResonanceK1 ext trk1 trk2 bTrack)) (cK1MinRap cfg)
             = false
          /\ Qltb (M ext (tempPiPi ext trk1 bTrack)) (cPiPiMin cfg) = false
          /\ Qgtb (M ext (tempPiPi ext trk1 bTrack)) (cPiPiMax cfg) = false)
  | _ => True
  end.

(** The identification cuts of the three roles. *)
Definition pionPID (ext : Externals) (cfg : Configurables) (trk1 : Track.t)
  : bool :=
  negb (Qgtb (Qabs (Track.tpcNSigmaPi trk1)) (cMaxTPCnSigmaPion cfg))
  && negb (hasTOF ext trk1
           && Qgtb (Qabs (Track.tofNSigmaPi trk1)) (cMaxTOFnSigmaPion cfg)).

Definition kaonAccepted (ext : Externals) (cfg : Configurables)
    (trk2 : Track.t) : Prop :=
  outcome (kaonPID (R := unit) cfg (Track.pt trk2) (Track.tpcNSigmaKa trk2)
             (hasTOF ext trk2) (Track.tofNSigmaKa trk2) true) = Next true.

Definition bachelorPID (ext : Externals) (cfg : Configurables)
    (bTrack : Track.t) : bool :=
  negb (Qgtb (Qabs (Track.tpcNSigmaPi bTrack)) (cMaxTPCnSigmaPion_bach cfg))
  && negb (negb (cDoTOFPID cfg =? 0) && hasTOF ext bTrack
           && Qgtb (Qabs (Track.tofNSigmaPi bTrack)) (cMaxTOFnSigmaPion_bach cfg)).

(** Every fill outside the QAbefore directory is for rows that passed the
    identification cuts of their roles. *)
Definition identified (ext : Externals) (cfg : Configurables) (f : Fill)
  : Prop :=
  String.prefix "QAbefore/" (hist f) = false ->
  match combo f with
  | [trk1; trk2] => pionPID ext cfg trk1 = true /\ kaonAccepted ext cfg trk2
  | [trk1; trk2; bTrack] =>
      pionPID ext cfg trk1 = true /\ kaonAccepted ext cfg trk2
      /\ bachelorPID ext cfg bTrack = true
  | _ => False
  end.

(** The truth requirements of lines 412-422. *)
Definition pairTruth (ext : Externals) (trk1 trk2 : Track.t) : Prop :=
  Z.abs (Track.pdgCode trk1) = kPiPlus ext
  /\ Z.abs (Track.pdgCode trk2) = kKPlus ext
  /\ Track.motherId trk1 = Track.motherId trk2
  /\ Z.abs (Track.motherPDG trk1) = 313.

Definition bachelorTruth (ext : Externals) (bTrack : Track.t) : Prop :=
  Z.abs (Track.pdgCode bTrack) = kPiPlus ext
  /\ Z.abs (Track.motherPDG bTrack) = 10323.

Definition isReconK1 (h : string) : bool :=
  existsb (String.eqb h)
    ["hReconK1pt"%string; "THnK1invmassMC"%string;
     "QAMCafter/InvMass_piK_pipi"%string].

Definition truthMatched (ext : Externals) (IsMC : bool) (f : Fill) : Prop :=
  (String.eqb (hist f) "hReconK892pt" = true ->
   IsMC = true
   /\ exists trk1 trk2 bTrack,
        combo f = [trk1; trk2; bTrack] /\ pairTruth ext trk1 trk2)
  /\ (isReconK1 (hist f) = true ->
      IsMC = true
      /\ exists trk1 trk2 bTrack,
           combo f = [trk1; trk2; bTrack]
           /\ pairTruth ext trk1 trk2 /\ bachelorTruth ext bTrack).

(** The configuration with the two TOF lists cut at the length of the TPC
    pT list. *)
Definition truncateTOF (cfg : Configurables) : Configurables := {|
  cMinPtcut := cMinPtcut cfg;
  cMaxDCArToPVcut := cMaxDCArToPVcut cfg;
  cMaxDCAzToPVcut := cMaxDCAzToPVcut cfg;
  cMinDCAzToPVcut := cMinDCAzToPVcut cfg;
  cMaxTPCnSigmaPion := cMaxTPCnSigmaPion cfg;
  cMaxTPCnSigmaPion_bach := cMaxTPCnSigmaPion_bach cfg;
  cMaxTOFnSigmaPion := cMaxTOFnSigmaPion cfg;
  cMaxTOFnSigmaPion_bach := cMaxTOFnSigmaPion_bach cfg;
  kaonTPCPIDpTintv := kaonTPCPIDpTintv cfg;
  kaonTPCPIDcuts := kaonTPCPIDcuts cfg;
  kaonTOFPIDpTintv :=
    firstn (List.length (kaonTPCPIDpTintv cfg)) (kaonTOFPIDpTintv cfg);
  kaonTOFPIDcuts :=
    firstn (List.length (kaonTPCPIDpTintv cfg)) (kaonTOFPIDcuts cfg);
  cDoTOFPID := cDoTOFPID cfg;
  cK892masswindow := cK892masswindow cfg;
  cPiPiMin := cPiPiMin cfg;
  cPiPiMax := cPiPiMax cfg;
  cK1MaxRap := cK1MaxRap cfg;
  cK1MinRap := cK1MinRap cfg
|}.

(** Concrete MC particles: a K1 at mid-rapidity decaying to K(892)0 and a
    pion, the same outside the rapidity window, and one without the pion. *)
Definition mcK1 (y : Q) (daughters : list Z) : McParticle.t := {|
  McParticle.pdgCode := 10323;
  McParticle.y := y;
  McParticle.pt := 3 # 1;
  McParticle.daughters := daughters
|}.

Definition mcParticles : list McParticle.t :=
  [mcK1 (1 # 10) [313; 211]; mcK1 (1 # 1) [313; 211]; mcK1 (0 # 1) [313; 22]].

(** A truth-matched triple: pion and kaon from one K(892)0, bachelor pion
    from a K1. *)
Definition mcTrack (index sign pdgCode motherId motherPDG : Z) : Track.t := {|
  Track.index := index;
  Track.sign := sign;
  Track.pt := 1 # 1;
  Track.px := 1 # 1;
  Track.py := 0 # 1;
  Track.pz := 0 # 1;
  Track.dcaXY := 0 # 1;
  Track.dcaZ := 1 # 10;
  Track.tpcNSigmaPi := 0 # 1;
  Track.tpcNSigmaKa := 0 # 1;
  Track.tofNSigmaPi := 0 # 1;
  Track.tofNSigmaKa := 0 # 1;
  Track.tofPIDselectionFlag := 0;
  Track.pdgCode := pdgCode;
  Track.motherId := motherId;
  Track.motherPDG := motherPDG
|}.

Definition mcTracks : list Track.t :=
  [mcTrack 0 1 211 7 313; mcTrack 1 (-1) (-321) 7 313; mcTrack 2 1 211 9 10323].

End K1Init.

(** ** Properties of the control-flow combinators *)

Lemma for_each_cons {E R A} (a : A) (l : list A) (body : A -> Run E unit unit) :
  for_each (R := R) (a :: l) body
  = bind (call (body a)) (fun _ => for_each l body).
Proof. reflexivity. Qed.

Section Always.
Context {E : Type} (P : E -> Prop).

Lemma always_pure {R A} (a : A) : always P (pure (R := R) a).
Proof. constructor. Qed.

Lemma always_exit {R A} (r : R) : always P (exit (A := A) r).
Proof. constructor. Qed.

Lemma always_emit {R} (e : E) : P e -> always P (emit (R := R) e).
Proof. intros H. repeat constructor. exact H. Qed.

Lemma always_silent {R A} (c : Run E R A) : events c = [] -> always P c.
Proof. unfold always. intros ->. constructor. Qed.

Lemma always_bind {R A B} (c : Run E R A) (k : A -> Run E R B) :
  always P c -> (forall a, always P (k a)) -> always P (bind c k).
Proof.
  unfold always, events. destruct c as [l [a| |]]; cbn [bind fst]; intros Hc Hk;
    try exact Hc.
  specialize (Hk a). destruct (k a) as [l' f]. cbn [fst] in *.
  apply Forall_app. split; assumption.
Qed.

Lemma always_when {R} (b : bool) (c : Run E R unit) :
  (b = true -> always P c) -> always P (when b c).
Proof. destruct b; intros H; [apply H; reflexivity|constructor]. Qed.

(** [if (b) continue;] followed by [k]: [k] runs only when [b] is false. *)
Lemma always_guard {R B} (b : bool) (r : R) (k : unit -> Run E R B) :
  (b = false -> always P (k tt)) -> always P (bind (when b (exit r)) k).
Proof.
  destruct b; intros H; [constructor|].
  apply always_bind; [constructor|]. intros []. apply H. reflexivity.
Qed.

Lemma always_call {R R'} (c : Run E R R) : always P c -> always P (call (R' := R') c).
Proof. unfold always, events. destruct c as [l [a| |]]; exact (fun H => H). Qed.

Lemma always_for_each {R A} (l : list A) (body : A -> Run E unit unit) :
  (forall a, In a l -> always P (body a)) ->
  always P (for_each (R := R) l body).
Proof.
  induction l as [|a l IH]; intros H; [constructor|].
  rewrite for_each_cons. apply always_bind.
  - apply always_call, H. left; reflexivity.
  - intros _. apply IH. intros a' Ha'. apply H. right; exact Ha'.
Qed.
End Always.

Section NoFault.
Context {E : Type}.












End NoFault.

Ltac run_step :=
  match goal with
  | |- context [when ?b _] => destruct b eqn:?
  end; cbn [when bind exit emit pure call fst snd app].

(** ** HfCandidateSelectorBplusToD0Pi: the status bitmask *)

Module HfSelProofs.
Import HfSel HfSelSpec.

Lemma rows_app l1 l2 : rows (l1 ++ l2) = rows l1 ++ rows l2.
Proof. apply flat_map_app. Qed.

Lemma checks_app l1 l2 : checks (l1 ++ l2) = checks l1 ++ checks l2.
Proof. apply flat_map_app. Qed.

Lemma onlyChecks_rows l : onlyChecks l -> rows l = [].
Proof.
  induction 1 as [|e l [c ->] _ IH]; [reflexivity|]. exact IH.
Qed.

Lemma onlyChecks_no_pid l : onlyChecks l -> filter isPidStatus l = [].
Proof.
  induction 1 as [|e l [c ->] _ IH]; [reflexivity|]. exact IH.
Qed.

(** [selectionTopol] always returns, and only logs checks. *)
Lemma selectionTopol_returns massD0 cfg B D P :
  exists l b, selectionTopol massD0 cfg B D P = (l, Exit b) /\ onlyChecks l.
Proof.
  unfold selectionTopol.
  repeat run_step.
  all: eexists; eexists; split; [reflexivity|]; repeat constructor; eauto.
Qed.

Lemma prefixSet_ones n : 0 <= n -> prefixSet (Z.ones n).
Proof.
  intros Hn k j Hj Hk.
  rewrite Z.testbit_ones_nonneg in Hk by lia.
  rewrite Z.testbit_ones_nonneg by lia.
  apply Z.ltb_lt in Hk. apply Z.ltb_lt. lia.
Qed.

Lemma prefixSet_0137 s : In s [0; 1; 3; 7] -> prefixSet s.
Proof.
  intros [<-|[<-|[<-|[<-|[]]]]].
  - apply (prefixSet_ones 0). lia.
  - apply (prefixSet_ones 1). lia.
  - apply (prefixSet_ones 2). lia.
  - apply (prefixSet_ones 3). lia.
Qed.

(** One candidate: one row, with status 0, 1, 3 or 7, and no fault. *)
Lemma processCandidate_row massD0 B getStatus cfg sync c :
  exists l f s,
    processCandidate massD0 B getStatus cfg sync c = (l, f)
    /\ f <> Fault /\ rows l = [s] /\ In s [0; 1; 3; 7].
Proof.
  unfold processCandidate.
  destruct (selectionTopol_returns massD0 cfg c (HfCandBplus.prong0 c)
              (HfCandBplus.prong1 c)) as (lt & b & -> & Hl).
  apply onlyChecks_rows in Hl.
  destruct (Z.land (HfCandBplus.hfflag c) (Z.shiftl 1 B) =? 0);
    cbn [when bind exit emit pure call fst snd app].
  { exists [HfSelBplusToD0Pi 0], (Exit tt), 0. simpl. intuition discriminate. }
  destruct b, sync, (usePid cfg), (activateQA cfg),
    (selectionPID cfg (getStatus (HfCandBplus.prong1 c)));
    cbn [when bind exit emit pure call fst snd app negb];
    eexists; eexists; eexists; (split; [reflexivity|]);
    (split; [discriminate|]);
    rewrite ?rows_app, ?Hl; cbn; rewrite ?rows_app, ?Hl; cbn;
    (split; [reflexivity|]); intuition.
Qed.

Lemma process_cons massD0 B getStatus cfg sync c cs :
  process massD0 B getStatus cfg sync (c :: cs)
  = (events (processCandidate massD0 B getStatus cfg sync c)
       ++ events (process massD0 B getStatus cfg sync cs),
     outcome (process massD0 B getStatus cfg sync cs)).
Proof.
  unfold process. rewrite for_each_cons.
  destruct (processCandidate_row massD0 B getStatus cfg sync c)
    as (l & f & s & -> & Hf & _).
  destruct f as [[]|[]|]; [| |congruence]; cbn [call bind events fst];
    destruct (for_each cs _); reflexivity.
Qed.

(** C1. For every list of candidates, [process] writes one status per
    candidate, every status written is 0, 1, 3 or 7, and every status
    written is prefix-set: a set bit has all lower bits set. *)
Theorem C1_status_prefix_monotonic massD0 B getStatus cfg sync
    (hfCandBs : list HfCandBplus.t) :
  let out := rows (events (process massD0 B getStatus cfg sync hfCandBs)) in
  List.length out = List.length hfCandBs
  /\ Forall (fun s => In s [0; 1; 3; 7]) out
  /\ Forall prefixSet out.
Proof.
  cbv zeta.
  assert (H : List.length (rows (events (process massD0 B getStatus cfg sync hfCandBs)))
              = List.length hfCandBs
              /\ Forall (fun s => In s [0; 1; 3; 7])
                   (rows (events (process massD0 B getStatus cfg sync hfCandBs)))).
  { induction hfCandBs as [|c cs [IHlen IHall]]; [split; [reflexivity|constructor]|].
    rewrite process_cons.
    destruct (processCandidate_row massD0 B getStatus cfg sync c)
      as (l & f & s & -> & _ & Hl & Hs).
    cbn [events fst]. rewrite rows_app, Hl.
    cbn [app List.length]. split; [now rewrite IHlen|].
    constructor; assumption. }
  destruct H as [Hlen Hall]. repeat split; try assumption.
  eapply Forall_impl; [|exact Hall]. exact prefixSet_0137.
Qed.

(** C2. A candidate whose [hfflag] lacks the B+ -> D0 pi bit gets status 0
    and nothing else happens for it: no topological check, no PID call, no
    QA fill; the loop goes on with the next candidate. *)
Theorem C2_unflagged_status_zero massD0 B getStatus cfg sync
    (hfCandB : HfCandBplus.t) (rest : list HfCandBplus.t) :
  Z.land (HfCandBplus.hfflag hfCandB) (Z.shiftl 1 B) = 0 ->
  processCandidate massD0 B getStatus cfg sync hfCandB = ([HfSelBplusToD0Pi 0], Exit tt)
  /\ events (process massD0 B getStatus cfg sync (hfCandB :: rest))
     = HfSelBplusToD0Pi 0 :: events (process massD0 B getStatus cfg sync rest).
Proof.
  intros H.
  assert (E : processCandidate massD0 B getStatus cfg sync hfCandB
              = ([HfSelBplusToD0Pi 0], Exit tt)).
  { unfold processCandidate. rewrite H. reflexivity. }
  split; [exact E|]. rewrite process_cons, E. reflexivity.
Qed.

Lemma C2_unflagged_status_zero_witness :
  Z.land (HfCandBplus.hfflag candNotFlagged) (Z.shiftl 1 0) = 0
  /\ processCandidate massD0 0 (fun _ => code PIDAccepted) cfgQA true
       candNotFlagged = ([HfSelBplusToD0Pi 0], Exit tt).
Proof.
  split; [reflexivity|].
  apply (C2_unflagged_status_zero massD0 0 (fun _ => code PIDAccepted) cfgQA
           true candNotFlagged []).
  reflexivity.
Defined.

(** C7. When [findBin] returns -1 for the candidate's pT, [selectionTopol]
    returns false; it evaluates no cut and does not fault. *)
Theorem C7_bin_not_found_rejects massD0 cfg (hfCandBplus : HfCandBplus.t)
    (hfCandD0 : HfCandD0.t) (trackPi : Track.t) :
  findBin (binsPt cfg) (HfCandBplus.pt hfCandBplus) = -1 ->
  selectionTopol massD0 cfg hfCandBplus hfCandD0 trackPi = ([], Exit false).
Proof.
  intros H. unfold selectionTopol. rewrite H. reflexivity.
Qed.

Lemma C7_bin_not_found_rejects_witness :
  findBin (binsPt cfgQA) (HfCandBplus.pt candOutOfRange) = -1
  /\ selectionTopol massD0 cfgQA candOutOfRange candD0 trackPi
     = ([], Exit false).
Proof.
  split; [reflexivity|].
  apply (C7_bin_not_found_rejects massD0 cfgQA candOutOfRange candD0 trackPi).
  reflexivity.
Defined.

(** C8. For every integer status, [selectionPID] with
    [acceptPIDNotApplicable] set returns true exactly when the status is not
    [PIDRejected], and with the switch unset exactly when the status is
    [PIDAccepted]; on the four enumerators, only Rejected fails in the first
    case and only Accepted passes in the second. *)
Theorem C8_selectionPID_table cfg (pidTrackPi : Z) :
  selectionPID cfg pidTrackPi
  = (if acceptPIDNotApplicable cfg
     then negb (pidTrackPi =? code PIDRejected)
     else pidTrackPi =? code PIDAccepted)
  /\ forall s : Status,
       selectionPID cfg (code s)
       = if acceptPIDNotApplicable cfg
         then match s with PIDRejected => false | _ => true end
         else match s with PIDAccepted => true | _ => false end.
Proof.
  unfold selectionPID. split.
  - destruct (acceptPIDNotApplicable cfg); cbn [negb andb].
    + destruct (pidTrackPi =? code PIDRejected); reflexivity.
    + destruct (pidTrackPi =? code PIDAccepted); reflexivity.
  - intros s. destruct (acceptPIDNotApplicable cfg), s; reflexivity.
Qed.

(** C9. A flagged candidate that passes [selectionTopol] gets status 3 when
    the consistency flag is false or [usePid] is off, and the PID status of
    the pion is not asked for. *)
Theorem C9_pid_stage_skipped massD0 B getStatus cfg sync
    (hfCandB : HfCandBplus.t) :
  Z.land (HfCandBplus.hfflag hfCandB) (Z.shiftl 1 B) <> 0 ->
  outcome (selectionTopol massD0 cfg hfCandB (HfCandBplus.prong0 hfCandB)
             (HfCandBplus.prong1 hfCandB)) = Exit true ->
  sync = false \/ usePid cfg = false ->
  rows (events (processCandidate massD0 B getStatus cfg sync hfCandB)) = [3]
  /\ filter isPidStatus
       (events (processCandidate massD0 B getStatus cfg sync hfCandB)) = [].
Proof.
  intros Hflag Htopol Hskip. unfold processCandidate.
  destruct (selectionTopol_returns massD0 cfg hfCandB
              (HfCandBplus.prong0 hfCandB) (HfCandBplus.prong1 hfCandB))
    as (lt & b & E & Hl).
  rewrite E in Htopol |- *. cbn [outcome snd] in Htopol.
  injection Htopol as ->.
  pose proof (onlyChecks_rows _ Hl) as Hr.
  pose proof (onlyChecks_no_pid _ Hl) as Hp.
  apply Z.eqb_neq in Hflag. rewrite Hflag.
  cbn [when bind exit emit pure call fst snd app negb].
  destruct Hskip as [-> | ->].
  - destruct (activateQA cfg);
      cbn [when bind exit emit pure call fst snd app negb events];
      rewrite ?rows_app, ?filter_app, ?Hr, ?Hp; cbn;
      rewrite ?rows_app, ?filter_app, ?Hr, ?Hp; split; reflexivity.
  - destruct (activateQA cfg), sync;
      cbn [when bind exit emit pure call fst snd app negb events];
      rewrite ?rows_app, ?filter_app, ?Hr, ?Hp; cbn;
      rewrite ?rows_app, ?filter_app, ?Hr, ?Hp; split; reflexivity.
Qed.

Lemma C9_pid_stage_skipped_witness :
  Z.land (HfCandBplus.hfflag candGood) (Z.shiftl 1 0) <> 0
  /\ outcome (selectionTopol massD0 cfgQA candGood
                (HfCandBplus.prong0 candGood) (HfCandBplus.prong1 candGood))
     = Exit true
  /\ init_selectionFlagDAndUsePidInSync (usePid cfgQA) 0 0 = false
  /\ rows (events (processCandidate massD0 0 (fun _ => code PIDAccepted) cfgQA
                     (init_selectionFlagDAndUsePidInSync (usePid cfgQA) 0 0)
                     candGood)) = [3].
Proof.
  split; [vm_compute; discriminate|]. split; [reflexivity|].
  split; [reflexivity|].
  apply (C9_pid_stage_skipped massD0 0 (fun _ => code PIDAccepted) cfgQA
           (init_selectionFlagDAndUsePidInSync (usePid cfgQA) 0 0) candGood).
  - vm_compute; discriminate.
  - reflexivity.
  - left; reflexivity.
Defined.




End HfSelProofs.

(** ** k1analysis: pairs, bachelors and the kaon gate *)

Module K1Proofs.
Import K1 K1Spec.


(** *** The breakpoint loops *)

Lemma kaonTPCPID_unfold {R} cfg pt nSigma sel :
  kaonTPCPID (R := R) cfg pt nSigma sel
  = if lengthOfkaonTPCPIDpTintv cfg >? 0
    then for_upto (Z.to_nat (lengthOfkaonTPCPIDpTintv cfg)) 0
           (breakpointBody (kaonTPCPIDpTintv cfg) (kaonTPCPIDcuts cfg) pt nSigma)
           sel
    else pure sel.
Proof. reflexivity. Qed.

Lemma kaonTOFPID_unfold {R} cfg pt nSigma sel :
  kaonTOFPID (R := R) cfg pt nSigma sel
  = if lengthOfkaonTPCPIDpTintv cfg >? 0
    then for_upto (Z.to_nat (lengthOfkaonTPCPIDpTintv cfg)) 0
           (breakpointBody (kaonTOFPIDpTintv cfg) (kaonTOFPIDcuts cfg) pt nSigma)
           sel
    else pure sel.
Proof. reflexivity. Qed.



(** One iteration logs nothing, and either faults or goes on. *)
Lemma breakpointBody_cases {R} vI vC pt ns i sel :
  breakpointBody (R := R) vI vC pt ns i sel = ([], Fault)
  \/ exists b, breakpointBody (R := R) vI vC pt ns i sel = ([], Next b).
Proof.
  unfold breakpointBody, at_.
  destruct (i <? 0); [left; reflexivity|].
  destruct (nth_error vI (Z.to_nat i)) as [x|]; [|left; reflexivity].
  cbn [bind pure fault app]. destruct (Qltb pt x); [|right; eexists; reflexivity].
  destruct (nth_error vC (Z.to_nat i)) as [c|]; [|left; reflexivity].
  cbn [bind pure fault app]. destruct (Qgtb (Qabs ns) c); right; eexists; reflexivity.
Qed.

Lemma for_upto_silent {R} vI vC pt ns count : forall i sel,
  events (for_upto (R := R) count i (breakpointBody vI vC pt ns) sel) = [].
Proof.
  induction count as [|c IH]; intros i sel; [reflexivity|].
  cbn [for_upto].
  destruct (breakpointBody_cases (R := R) vI vC pt ns i sel) as [-> | [b ->]];
    [reflexivity|].
  cbn [bind]. specialize (IH (i + 1) b).
  destruct (for_upto c (i + 1) _ b) as [l f]. cbn [events fst] in *.
  rewrite IH. reflexivity.
Qed.




Section Gate.
Context {R : Type} (len : nat) (vI vC : list Q) (pt ns : Q) (sel : bool).



End Gate.


Lemma kaonPID_unfold {R} cfg pt nsTPC hasTOF nsTOF sel :
  kaonPID (R := R) cfg pt nsTPC hasTOF nsTOF sel
  = bind (kaonTPCPID cfg pt nsTPC sel)
      (fun sel' => if hasTOF then kaonTOFPID cfg pt nsTOF sel' else pure sel').
Proof. reflexivity. Qed.

(** The kaon loops never log anything. *)
Lemma kaonPID_silent {R} cfg pt nsTPC hasTOF nsTOF sel :
  events (kaonPID (R := R) cfg pt nsTPC hasTOF nsTOF sel) = [].
Proof.
  rewrite kaonPID_unfold, kaonTPCPID_unfold.
  assert (H1 : forall s vI vC ns,
             events (if lengthOfkaonTPCPIDpTintv cfg >? 0
                     then for_upto (R := R) (Z.to_nat (lengthOfkaonTPCPIDpTintv cfg)) 0
                            (breakpointBody vI vC pt ns) s
                     else pure s) = []).
  { intros s vI vC ns. destruct (_ >? 0); [apply for_upto_silent|reflexivity]. }
  pose proof (H1 sel (kaonTPCPIDpTintv cfg) (kaonTPCPIDcuts cfg) nsTPC) as H.
  destruct (if lengthOfkaonTPCPIDpTintv cfg >? 0 then _ else _) as [l [b| |]];
    cbn [events fst] in H; subst l; try reflexivity.
  cbn [bind]. destruct hasTOF; [|reflexivity].
  rewrite kaonTOFPID_unfold.
  pose proof (H1 b (kaonTOFPIDpTintv cfg) (kaonTOFPIDcuts cfg) nsTOF) as H.
  destruct (if lengthOfkaonTPCPIDpTintv cfg >? 0 then _ else _) as [l f].
  cbn [events fst] in *. subst l. reflexivity.
Qed.






(** *** Pairs and bachelors *)

Ltac walk tac :=
  repeat first
    [ apply always_silent, kaonPID_silent
    | simple apply always_guard; intros ?; cbv beta
    | simple apply always_bind; [|intros ?]
    | simple apply always_when; intros ?
    | simple apply always_pure
    | simple apply always_exit
    | simple apply always_emit; tac
    | match goal with
      | |- always _ (if ?b then _ else _) => destruct b eqn:?
      end ].

Lemma opposite_after_guard (trk1 trk2 : Track.t) :
  (Track.sign trk1 * Track.sign trk2 >? 0) = false ->
  ~ sameChargeSign trk1 trk2 /\ Track.sign trk1 * Track.sign trk2 <= 0.
Proof.
  intros H. rewrite Z.gtb_ltb in H. apply Z.ltb_ge in H.
  split; [|exact H]. intros [[H1 H2]|[H1 H2]]; nia.
Qed.

Lemma bachelorBody_opposite ext cfg IsMC IsMix collision trk1 trk2
    isTrk1hasTOF isK892Anti lDecayDaughter1 lResonanceK892 bTrack :
  (Track.sign trk1 * Track.sign trk2 >? 0) = false ->
  always oppositeSignPair
    (bachelorBody ext cfg IsMC IsMix collision trk1 trk2 isTrk1hasTOF
       isK892Anti lDecayDaughter1 lResonanceK892 bTrack).
Proof.
  intros H. apply opposite_after_guard in H.
  unfold bachelorBody, fill. cbv zeta.
  walk ltac:(exact H).
Qed.

Lemma pairBody_opposite ext cfg IsMC IsMix collision dTracks1 pair :
  always oppositeSignPair (pairBody ext cfg IsMC IsMix collision dTracks1 pair).
Proof.
  destruct pair as [trk1 trk2]. unfold pairBody, fill. cbv zeta.
  apply always_guard; intros Hidx; cbv beta.
  apply always_guard; intros Hsign; cbv beta.
  pose proof (opposite_after_guard _ _ Hsign) as H.
  walk ltac:(exact H).
  apply always_for_each. intros bTrack _.
  apply bachelorBody_opposite. exact Hsign.
Qed.

(** C5. Every histogram fill of [fillHistograms], in the pair section and
    inside the bachelor loop, is made for a pair [trk1], [trk2] that does
    not share a charge sign: the product of the signs is not positive. *)
Theorem C5_opposite_sign_pairs ext cfg (IsMC IsMix : bool)
    (collision : Collision.t) (dTracks1 dTracks2 : list Track.t) :
  Forall oppositeSignPair
    (events (fillHistograms ext cfg IsMC IsMix collision dTracks1 dTracks2)).
Proof.
  unfold fillHistograms.
  apply (always_for_each oppositeSignPair). intros pair _.
  apply pairBody_opposite.
Qed.

Lemma bachelorBody_distinct ext cfg IsMC IsMix collision trk1 trk2
    isTrk1hasTOF isK892Anti lDecayDaughter1 lResonanceK892 bTrack :
  (Track.index trk1 =? Track.index trk2) = false ->
  always distinctRoles
    (bachelorBody ext cfg IsMC IsMix collision trk1 trk2 isTrk1hasTOF
       isK892Anti lDecayDaughter1 lResonanceK892 bTrack).
Proof.
  intros H12. apply Z.eqb_neq in H12.
  unfold bachelorBody, fill. cbv zeta.
  apply always_guard; intros Hb; cbv beta.
  apply orb_false_iff in Hb. destruct Hb as [Hb1 Hb2].
  apply Z.eqb_neq in Hb1, Hb2.
  walk ltac:(cbn; repeat split; assumption).
Qed.

Lemma pairBody_distinct ext cfg IsMC IsMix collision dTracks1 pair :
  always distinctRoles (pairBody ext cfg IsMC IsMix collision dTracks1 pair).
Proof.
  destruct pair as [trk1 trk2]. unfold pairBody, fill. cbv zeta.
  apply always_guard; intros Hidx; cbv beta.
  pose proof Hidx as H. apply Z.eqb_neq in H.
  walk ltac:(exact H).
  apply always_for_each. intros bTrack _.
  apply bachelorBody_distinct. exact Hidx.
Qed.

(** C6. Every histogram fill of [fillHistograms] is made for tracks with
    pairwise different indices: [trk1] and [trk2] in the pair section, and
    [trk1], [trk2] and [bTrack] inside the bachelor loop. *)
Theorem C6_distinct_indices ext cfg (IsMC IsMix : bool)
    (collision : Collision.t) (dTracks1 dTracks2 : list Track.t) :
  Forall distinctRoles
    (events (fillHistograms ext cfg IsMC IsMix collision dTracks1 dTracks2)).
Proof.
  unfold fillHistograms.
  apply (always_for_each distinctRoles). intros pair _.
  apply pairBody_distinct.
Qed.

(** *** The lists and the pT cut *)
























(** The two statements above are about a log that is not empty: the three
    tracks of [tracks] give four opposite-sign pairs, each with a bachelor. *)
Example fillHistograms_fills :
  List.length
    (events (fillHistograms extQ cfgDefault false false collision tracks tracks))
  = 66%nat
  /\ outcome (fillHistograms extQ cfgDefault false false collision tracks tracks)
     = Next tt.
Proof. split; vm_compute; reflexivity. Qed.

End K1Proofs.

(** ** HfCandidateSelectorBplusToD0Pi: further properties *)

Module HfSelExtra.
Import HfSel HfSelSpec HfSelInit HfSelProofs.

Lemma qaFills_app l1 l2 : qaFills (l1 ++ l2) = qaFills l1 ++ qaFills l2.
Proof. apply flat_map_app. Qed.

Lemma onlyChecks_qaFills l : onlyChecks l -> qaFills l = [].
Proof.
  induction 1 as [|e l [c ->] _ IH]; [reflexivity|]. exact IH.
Qed.

Lemma selectionTopol_outcome massD0 cfg B D P :
  outcome (selectionTopol massD0 cfg B D P) = Exit (topolCuts massD0 cfg B D P).
Proof.
  unfold selectionTopol, topolCuts.
  repeat run_step; cbn [outcome snd negb andb]; try reflexivity.
Qed.

(** X1. [selectionTopol] returns true exactly when the pT bin is found and
    none of its cuts fails, the D0bar window counting only for a positive
    pion and the D0 window only for a negative one. *)
Theorem X1_selectionTopol_is_conjunction massD0 cfg
    (hfCandBplus : HfCandBplus.t) (hfCandD0 : HfCandD0.t) (trackPi : Track.t) :
  outcome (selectionTopol massD0 cfg hfCandBplus hfCandD0 trackPi)
  = Exit (topolCuts massD0 cfg hfCandBplus hfCandD0 trackPi).
Proof. apply selectionTopol_outcome. Qed.

Lemma processCandidate_status massD0 B getStatus cfg sync c :
  rows (events (processCandidate massD0 B getStatus cfg sync c))
  = [statusOf massD0 B getStatus cfg sync c]
  /\ qaFills (events (processCandidate massD0 B getStatus cfg sync c))
     = (if activateQA cfg
        then map (fun step => (2 + step, HfCandBplus.pt c))
               (filter (Z.testbit (statusOf massD0 B getStatus cfg sync c))
                  [RecoSkims; RecoTopol; RecoPID])
        else []).
Proof.
  unfold processCandidate, statusOf.
  pose proof (selectionTopol_outcome massD0 cfg c (HfCandBplus.prong0 c)
                (HfCandBplus.prong1 c)) as Hout.
  destruct (selectionTopol_returns massD0 cfg c (HfCandBplus.prong0 c)
              (HfCandBplus.prong1 c)) as (lt & b & E & Hl).
  rewrite E in Hout |- *. cbn [outcome snd] in Hout.
  injection Hout as <-.
  pose proof (onlyChecks_rows _ Hl) as Hr.
  pose proof (onlyChecks_qaFills _ Hl) as Hq.
  destruct (Z.land (HfCandBplus.hfflag c) (Z.shiftl 1 B) =? 0);
    cbn [when bind exit emit pure call fst snd app events].
  { destruct (activateQA cfg); split; reflexivity. }
  destruct b, sync, (usePid cfg), (activateQA cfg),
    (selectionPID cfg (getStatus (HfCandBplus.prong1 c)));
    cbn [when bind exit emit pure call fst snd app negb andb events];
    rewrite ?rows_app, ?qaFills_app, ?Hr, ?Hq; cbn;
    rewrite ?rows_app, ?qaFills_app, ?Hr, ?Hq; split; reflexivity.
Qed.

Lemma process_status massD0 B getStatus cfg sync cs :
  rows (events (process massD0 B getStatus cfg sync cs))
  = map (statusOf massD0 B getStatus cfg sync) cs.
Proof.
  induction cs as [|c cs IH]; [reflexivity|].
  rewrite process_cons. cbn [events fst map]. rewrite rows_app.
  fold (events (processCandidate massD0 B getStatus cfg sync c)).
  fold (events (process massD0 B getStatus cfg sync cs)).
  rewrite (proj1 (processCandidate_status massD0 B getStatus cfg sync c)), IH.
  reflexivity.
Qed.

(** X2. [process] writes, in input order, the status of each candidate as
    this decision table gives it: 0 when the [hfflag] bit is absent, 1 when
    a topological cut fails, 7 when the consistency flag and [usePid] are
    set and [selectionPID] accepts the pion, 3 otherwise. *)
Theorem X2_process_decision_table massD0 B getStatus cfg sync
    (hfCandBs : list HfCandBplus.t) :
  rows (events (process massD0 B getStatus cfg sync hfCandBs))
  = map (statusOf massD0 B getStatus cfg sync) hfCandBs.
Proof. apply process_status. Qed.

(** X3. The QA switch is observational: the statuses written by [process]
    are the same with [activateQA] on and off. *)
Theorem X3_activateQA_does_not_change_status massD0 B getStatus cfg sync
    (qa : bool) (hfCandBs : list HfCandBplus.t) :
  rows (events (process massD0 B getStatus (withQA qa cfg) sync hfCandBs))
  = rows (events (process massD0 B getStatus cfg sync hfCandBs)).
Proof.
  rewrite !process_status. apply map_ext. intros c. reflexivity.
Qed.

(** X4. With [activateQA] on, the fills of hSelections made for a
    candidate are one per bit set in its status, at 2 + step and at the
    candidate's pT, in the order of the steps; the bin of value 1 is never
    filled.  With the switch off nothing is filled. *)
Theorem X4_qa_fills_follow_status massD0 B getStatus cfg sync
    (hfCandB : HfCandBplus.t) :
  qaFills (events (processCandidate massD0 B getStatus cfg sync hfCandB))
  = (if activateQA cfg
     then map (fun step => (2 + step, HfCandBplus.pt hfCandB))
            (filter (Z.testbit (statusOf massD0 B getStatus cfg sync hfCandB))
               [RecoSkims; RecoTopol; RecoPID])
     else []).
Proof. apply processCandidate_status. Qed.

(** X5. [selectionTopol] reads one mass of the D0 daughter at most: the
    D0bar hypothesis for a positive pion, the D0 hypothesis for a negative
    one, none for a pion of sign 0.  Two D0 rows that agree on that mass
    give the same checks and the same verdict. *)
Theorem X5_only_the_selected_mass_is_read massD0 cfg
    (hfCandBplus : HfCandBplus.t) (trackPi : Track.t)
    (hfCandD0 hfCandD0' : HfCandD0.t) :
  relevantMass trackPi hfCandD0 = relevantMass trackPi hfCandD0' ->
  selectionTopol massD0 cfg hfCandBplus hfCandD0 trackPi
  = selectionTopol massD0 cfg hfCandBplus hfCandD0' trackPi.
Proof.
  unfold relevantMass, selectionTopol. intros H.
  destruct (Track.sign trackPi >? 0) eqn:Epos.
  - injection H as ->. destruct (Track.sign trackPi <? 0) eqn:Eneg.
    + apply Z.gtb_lt in Epos. apply Z.ltb_lt in Eneg. lia.
    + reflexivity.
  - destruct (Track.sign trackPi <? 0).
    + injection H as ->. reflexivity.
    + reflexivity.
Qed.

Lemma X5_only_the_selected_mass_is_read_witness :
  relevantMass trackPi candD0
  = relevantMass trackPi
      {| HfCandD0.invMassD0barToKPi := 18 # 10;
         HfCandD0.invMassD0ToPiK := 5 # 1 |}
  /\ selectionTopol massD0 cfgQA candGood candD0 trackPi
     = selectionTopol massD0 cfgQA candGood
         {| HfCandD0.invMassD0barToKPi := 18 # 10;
            HfCandD0.invMassD0ToPiK := 5 # 1 |} trackPi.
Proof.
  split; [reflexivity|].
  apply (X5_only_the_selected_mass_is_read massD0 cfgQA candGood trackPi).
  reflexivity.
Defined.

Lemma last_nonempty {A} (l : list A) : forall (y d d' : A),
  last (y :: l) d = last (y :: l) d'.
Proof.
  induction l as [|z l IH]; intros y d d'; [reflexivity|].
  change (last (z :: l) d = last (z :: l) d'). apply IH.
Qed.

Lemma last_cons {A} (x : A) (l : list A) (d : A) : last (x :: l) d = last l x.
Proof.
  destruct l as [|y l]; [reflexivity|].
  change (last (y :: l) d = last (y :: l) x). apply last_nonempty.
Qed.

Lemma scanOptions_last options : forall a b,
  scanOptions options (a, b)
  = (last (map ConfigParamSpec.defaultValue
             (filter (fun o => String.eqb (ConfigParamSpec.name o) "selectionFlagD0")
                options)) a,
     last (map ConfigParamSpec.defaultValue
             (filter (fun o => String.eqb (ConfigParamSpec.name o) "selectionFlagD0bar")
                options)) b).
Proof.
  unfold scanOptions.
  induction options as [|o os IH]; intros a b; [reflexivity|].
  cbn [fold_left filter]. rewrite IH.
  destruct (String.eqb (ConfigParamSpec.name o) "selectionFlagD0"),
    (String.eqb (ConfigParamSpec.name o) "selectionFlagD0bar");
    cbn [map]; rewrite ?last_cons; reflexivity.
Qed.

Lemma declared_cons option d devices :
  declared option (d :: devices)
  = (if String.eqb (DeviceSpec.name d) "hf-candidate-creator-bplus"
     then map ConfigParamSpec.defaultValue
            (filter (fun o => String.eqb (ConfigParamSpec.name o) option)
               (DeviceSpec.options d))
     else [])
    ++ declared option devices.
Proof.
  unfold declared. cbn [filter].
  destruct (String.eqb (DeviceSpec.name d) "hf-candidate-creator-bplus");
    [|reflexivity].
  cbn [flat_map]. rewrite filter_app, map_app. reflexivity.
Qed.

Lemma last_app_default {A} (l1 l2 : list A) (d : A) :
  last (l1 ++ l2) d = last l2 (last l1 d).
Proof.
  revert d. induction l1 as [|x l1 IH]; intros d; [reflexivity|].
  rewrite <- app_comm_cons, !last_cons. apply IH.
Qed.

Lemma scanDevices_last devices :
  scanDevices devices
  = (last (declared "selectionFlagD0" devices) (-1),
     last (declared "selectionFlagD0bar" devices) (-1)).
Proof.
  unfold scanDevices. generalize (-1) at 1 3 as a. generalize (-1) as b.
  induction devices as [|d ds IH]; intros b a; [reflexivity|].
  cbn [fold_left]. rewrite !declared_cons, !last_app_default.
  destruct (String.eqb (DeviceSpec.name d) "hf-candidate-creator-bplus").
  - rewrite scanOptions_last. apply IH.
  - apply IH.
Qed.

(** X6. After the scan of the workflow in [init], each of the two flags
    holds the default value of the last option of that name among the
    devices named hf-candidate-creator-bplus, and -1 when there is none. *)
Theorem X6_scan_keeps_last_declared (devices : list DeviceSpec.t) :
  scanDevices devices
  = (last (declared "selectionFlagD0" devices) (-1),
     last (declared "selectionFlagD0bar" devices) (-1)).
Proof. apply scanDevices_last. Qed.

Lemma declared_without_creator option devices :
  (forall d, In d devices ->
     String.eqb (DeviceSpec.name d) "hf-candidate-creator-bplus" = false) ->
  declared option devices = [].
Proof.
  induction devices as [|d ds IH]; intros H; [reflexivity|].
  rewrite declared_cons, (H d (or_introl eq_refl)).
  apply IH. intros d' Hd'. apply H. right; exact Hd'.
Qed.

(** X7. When no device of the workflow is named hf-candidate-creator-bplus,
    both flags stay at -1 and [init] leaves the selector in sync exactly
    when [usePid] is set: with [usePid] off it is out of sync. *)
Theorem X7_without_creator_in_sync_iff_usePid (usePid : bool)
    (devices : list DeviceSpec.t) :
  (forall d, In d devices ->
     String.eqb (DeviceSpec.name d) "hf-candidate-creator-bplus" = false) ->
  scanDevices devices = (-1, -1) /\ init_inSync usePid devices = usePid.
Proof.
  intros H. unfold init_inSync.
  rewrite scanDevices_last, !declared_without_creator by exact H.
  split; [reflexivity|]. destruct usePid; reflexivity.
Qed.

Lemma X7_without_creator_in_sync_iff_usePid_witness :
  init_inSync false [otherDevice] = false.
Proof.
  apply (X7_without_creator_in_sync_iff_usePid false [otherDevice]).
  intros d [<-|[]]. reflexivity.
Defined.

Lemma statusOf_7 massD0 B getStatus cfg sync c :
  statusOf massD0 B getStatus cfg sync c = 7 -> sync = true /\ usePid cfg = true.
Proof.
  unfold statusOf.
  destruct (Z.land _ _ =? 0); [discriminate|].
  destruct (negb (topolCuts _ _ _ _ _)); [discriminate|].
  destruct sync, (usePid cfg); cbn [andb]; try discriminate.
  intros _. split; reflexivity.
Qed.

(** X8. With the consistency flag that [init] computes, [process] writes
    status 7 only when [usePid] is set and the creator's [selectionFlagD0]
    and [selectionFlagD0bar] are both nonzero (-1, the value kept without
    creator, included). *)
Theorem X8_status_7_needs_pid_in_sync massD0 B getStatus cfg
    (devices : list DeviceSpec.t) (hfCandBs : list HfCandBplus.t) :
  In 7 (rows (events (process massD0 B getStatus cfg
                        (init_inSync (usePid cfg) devices) hfCandBs))) ->
  usePid cfg = true
  /\ fst (scanDevices devices) <> 0 /\ snd (scanDevices devices) <> 0.
Proof.
  rewrite process_status. intros H. apply in_map_iff in H.
  destruct H as (c & H & _). apply statusOf_7 in H. destruct H as [Hs Hp].
  split; [exact Hp|]. revert Hs. rewrite Hp. unfold init_inSync.
  destruct (scanDevices devices) as [a b]. cbn [fst snd].
  unfold init_selectionFlagDAndUsePidInSync.
  destruct (a =? 0) eqn:Ea, (b =? 0) eqn:Eb; cbn [negb andb orb];
    try discriminate.
  intros _. apply Z.eqb_neq in Ea, Eb. split; assumption.
Qed.

Lemma X8_status_7_needs_pid_in_sync_witness :
  In 7 (rows (events (process massD0 0 (fun _ => code PIDAccepted) cfgQA
                        (init_inSync (usePid cfgQA) [otherDevice; creator 1 1])
                        [candNotFlagged; candGood])))
  /\ fst (scanDevices [otherDevice; creator 1 1]) <> 0.
Proof.
  split; [right; left; reflexivity|].
  apply (X8_status_7_needs_pid_in_sync massD0 0 (fun _ => code PIDAccepted)
           cfgQA [otherDevice; creator 1 1] [candNotFlagged; candGood]).
  right; left; reflexivity.
Defined.
End HfSelExtra.

(** ** k1analysis: further properties *)

Lemma always_bind_val {E R A B} (P : E -> Prop) (c : Run E R A)
    (k : A -> Run E R B) :
  always P c -> (forall a, outcome c = Next a -> always P (k a)) ->
  always P (bind c k).
Proof.
  unfold always, events, outcome. destruct c as [l [a| |]]; cbn [bind fst snd];
    intros Hc Hk; try exact Hc.
  specialize (Hk a eq_refl). destruct (k a) as [l' f]. cbn [fst] in *.
  apply Forall_app. split; assumption.
Qed.

Module K1Extra.
Import K1 K1Spec K1Init K1Proofs.

Lemma daughtersLoop_exists kPi daughters : forall pass1 pass2,
  daughtersLoop kPi daughters (pass1, pass2)
  = (pass1 || existsb (fun dau => Z.abs dau =? kPi) daughters,
     pass2 || existsb (fun dau => Z.abs dau =? 313) daughters).
Proof.
  unfold daughtersLoop.
  induction daughters as [|d ds IH]; intros pass1 pass2.
  - cbn. rewrite !orb_false_r. reflexivity.
  - cbn [fold_left existsb]. rewrite IH.
    destruct (Z.abs d =? kPi), (Z.abs d =? 313), pass1, pass2; reflexivity.
Qed.

Lemma processMCTrue_fills ext mcParticles :
  processMCTrue ext mcParticles
  = (map (fun part => {| hist := "hTrueK1pt"; combo := [];
                         values := [McParticle.pt part] |})
       (filter (isTrueK1 ext) mcParticles),
     Next tt).
Proof.
  unfold processMCTrue.
  induction mcParticles as [|part parts IH]; [reflexivity|].
  rewrite for_each_cons, IH. cbn [filter]. unfold isTrueK1.
  rewrite daughtersLoop_exists. cbn [orb].
  destruct (Z.abs (McParticle.pdgCode part) =? 10323);
    cbn [when bind exit emit pure call app andb]; [|reflexivity].
  destruct (Qgtb (McParticle.y part) (1 # 2) || Qltb (McParticle.y part) (-1 # 2));
    cbn [when bind exit emit pure call app andb negb]; [reflexivity|].
  destruct (existsb _ (McParticle.daughters part)),
    (existsb _ (McParticle.daughters part));
    cbn [when bind exit emit pure call app andb negb orb map fill]; reflexivity.
Qed.

(** X9. The MC-truth loop of [processMCTrue] (the same loop ends
    [processMC]) fills hTrueK1pt once, with its pT and in table order, for
    each particle of code 10323 in absolute value, of rapidity within
    [-0.5, 0.5], with at least one daughter of code 313 and at least one
    charged pion among its daughters; it fills nothing else. *)
Theorem X9_true_k1_fills ext (mcParticles : list McParticle.t) :
  processMCTrue ext mcParticles
  = (map (fun part => {| hist := "hTrueK1pt"; combo := [];
                         values := [McParticle.pt part] |})
       (filter (isTrueK1 ext) mcParticles),
     Next tt).
Proof. apply processMCTrue_fills. Qed.

(** X10. hTrueK1pt is added to the registry only under [doprocessMC] or
    [doprocessMCLight]: the fills of [processMCTrue] all go to a registered
    histogram exactly when one of the two switches is set or no particle
    qualifies. *)
Theorem X10_true_k1_registered_iff (doprocessMC doprocessMCLight : bool) ext
    (mcParticles : list McParticle.t) :
  Forall (fillRegistered (init doprocessMC doprocessMCLight))
    (events (processMCTrue ext mcParticles))
  <-> doprocessMC || doprocessMCLight = true
      \/ filter (isTrueK1 ext) mcParticles = [].
Proof.
  rewrite processMCTrue_fills. cbn [events fst].
  destruct (filter (isTrueK1 ext) mcParticles) as [|p ps].
  - split; [right; reflexivity|constructor].
  - destruct doprocessMC, doprocessMCLight; cbn [orb]; split.
    all: try (intros _; left; reflexivity).
    all: try (intros _; apply Forall_forall; intros f Hf;
              apply in_map_iff in Hf; destruct Hf as (q & <- & _);
              reflexivity).
    + intros H. inversion H as [|f fs Hf _]. discriminate Hf.
    + intros [H|H]; discriminate H.
Qed.

(** *** Invariants of the fills *)

Ltac walk2 tac :=
  repeat first
    [ simple apply always_guard; intros ?; cbv beta
    | match goal with
      | |- always _ (bind (kaonPID _ _ _ _ _ _) _) =>
          apply always_bind_val;
          [apply always_silent, kaonPID_silent | intros ? ?]
      end
    | simple apply always_bind; [|intros ?]
    | simple apply always_when; intros ?
    | simple apply always_pure
    | simple apply always_exit
    | simple apply always_emit; tac
    | match goal with
      | |- always _ (if ?b then _ else _) => destruct b eqn:?
      end ].

Lemma if_true_false (b : bool) : (if b then true else false) = b.
Proof. destruct b; reflexivity. Qed.

Lemma fillHistograms_always (P : Fill -> Prop) ext cfg IsMC IsMix collision
    dTracks1 dTracks2 :
  (forall trk1 trk2, In trk1 dTracks2 -> In trk2 dTracks2 ->
     always P (pairBody ext cfg IsMC IsMix collision dTracks1 (trk1, trk2))) ->
  always P (fillHistograms ext cfg IsMC IsMix collision dTracks1 dTracks2).
Proof.
  intros H. unfold fillHistograms, CombinationsFullIndexPolicy.
  apply always_for_each. intros [trk1 trk2] Hin.
  apply in_prod_iff in Hin. apply H; tauto.
Qed.

Lemma trackCut_within cfg track :
  trackCut cfg track = true -> withinCuts cfg track.
Proof.
  unfold trackCut, withinCuts, Qgtb, Qltb.
  destruct (Qle_bool (cMinPtcut cfg) (Track.pt track)) eqn:E1;
    cbn [negb]; [|discriminate].
  destruct (Qle_bool (Track.dcaXY track) (cMaxDCArToPVcut cfg)) eqn:E2;
    cbn [negb]; [|discriminate].
  destruct (Qle_bool (cMinDCAzToPVcut cfg) (Track.dcaZ track)) eqn:E3;
    cbn [negb orb]; [|discriminate].
  destruct (Qle_bool (Track.dcaZ track) (cMaxDCAzToPVcut cfg)) eqn:E4;
    cbn [negb]; [|discriminate].
  intros _. apply Qle_bool_iff in E1, E2, E3, E4. repeat split; assumption.
Qed.

(** **** Where the rows come from *)

Lemma bachelorBody_fromLists ext cfg IsMC IsMix collision dTracks1 dTracks2
    trk1 trk2 isTrk1hasTOF isK892Anti lDecayDaughter1 lResonanceK892 bTrack :
  In trk1 dTracks2 -> In trk2 dTracks2 -> In bTrack dTracks1 ->
  always (fromLists dTracks1 dTracks2)
    (bachelorBody ext cfg IsMC IsMix collision trk1 trk2 isTrk1hasTOF
       isK892Anti lDecayDaughter1 lResonanceK892 bTrack).
Proof.
  intros H1 H2 Hb. unfold bachelorBody, fill. cbv zeta.
  walk2 ltac:(unfold fromLists; cbn [combo]; repeat split; assumption).
Qed.

(** X11. In every fill of [fillHistograms] the pion and the kaon of the
    pair are rows of [dTracks2] and the bachelor is a row of [dTracks1]:
    in event mixing, where the two lists differ, the K(892)0 pair is built
    inside the second list and only the bachelor is taken from the first. *)
Theorem X11_pair_from_second_list ext cfg (IsMC IsMix : bool)
    (collision : Collision.t) (dTracks1 dTracks2 : list Track.t) :
  Forall (fromLists dTracks1 dTracks2)
    (events (fillHistograms ext cfg IsMC IsMix collision dTracks1 dTracks2)).
Proof.
  apply (fillHistograms_always (fromLists dTracks1 dTracks2)).
  intros trk1 trk2 H1 H2. unfold pairBody, fill. cbv zeta.
  walk2 ltac:(unfold fromLists; cbn [combo]; repeat split; assumption).
  apply always_for_each. intros bTrack Hb.
  apply bachelorBody_fromLists; assumption.
Qed.

(** **** Track cuts *)

Ltac cut_tac :=
  cbn [combo];
  repeat (constructor;
          [first [assumption
                 |apply trackCut_within, negb_false_iff; assumption]|]);
  constructor.

Lemma bachelorBody_withinCuts ext cfg IsMC IsMix collision
    trk1 trk2 isTrk1hasTOF isK892Anti lDecayDaughter1 lResonanceK892 bTrack :
  withinCuts cfg trk1 -> withinCuts cfg trk2 ->
  always (fun f => Forall (withinCuts cfg) (combo f))
    (bachelorBody ext cfg IsMC IsMix collision trk1 trk2 isTrk1hasTOF
       isK892Anti lDecayDaughter1 lResonanceK892 bTrack).
Proof.
  intros H1 H2. unfold bachelorBody, fill. cbv zeta.
  walk2 cut_tac.
Qed.

(** X12. Every row of every fill of [fillHistograms], in any of the three
    roles, passed [trackCut]: its pT is at least [cMinPtcut], its dcaXY at
    most [cMaxDCArToPVcut], and its dcaZ lies between [cMinDCAzToPVcut] and
    [cMaxDCAzToPVcut], signs included, so that a row with dcaZ below
    [cMinDCAzToPVcut] (a negative dcaZ under the default 0) is never used. *)
Theorem X12_rows_pass_trackCut ext cfg (IsMC IsMix : bool)
    (collision : Collision.t) (dTracks1 dTracks2 : list Track.t) :
  Forall (fun f => Forall (withinCuts cfg) (combo f))
    (events (fillHistograms ext cfg IsMC IsMix collision dTracks1 dTracks2)).
Proof.
  apply (fillHistograms_always (fun f => Forall (withinCuts cfg) (combo f))).
  intros trk1 trk2 _ _. unfold pairBody, fill. cbv zeta.
  walk2 cut_tac.
  apply always_for_each. intros bTrack _.
  apply bachelorBody_withinCuts; apply trackCut_within, negb_false_iff;
    assumption.
Qed.

(** **** The registry *)

Ltac registry_tac mc mcl :=
  unfold fillRegistered; cbn [hist values List.length];
  first
    [ destruct mc, mcl; reflexivity
    | match goal with
      | Hflag : ?b = true -> mc || mcl = true, H : ?b = true |- _ =>
          unfold init; rewrite (Hflag H); reflexivity
      end ].

Lemma bachelorBody_registered mc mcl ext cfg IsMC IsMix collision
    trk1 trk2 isTrk1hasTOF isK892Anti lDecayDaughter1 lResonanceK892 bTrack :
  (IsMC = true -> mc || mcl = true) ->
  always (fillRegistered (init mc mcl))
    (bachelorBody ext cfg IsMC IsMix collision trk1 trk2 isTrk1hasTOF
       isK892Anti lDecayDaughter1 lResonanceK892 bTrack).
Proof.
  intros Hflag. unfold bachelorBody, fill. cbv zeta.
  walk2 ltac:(registry_tac mc mcl).
Qed.

(** X13. Every fill of [fillHistograms] goes to a histogram that [init]
    added to the registry, with as many values as the histogram has axes;
    for the MC instance this needs [doprocessMC] or [doprocessMCLight],
    the switches under which [init] adds the MC histograms. *)
Theorem X13_fills_are_registered (doprocessMC doprocessMCLight : bool) ext cfg
    (IsMC IsMix : bool) (collision : Collision.t)
    (dTracks1 dTracks2 : list Track.t) :
  (IsMC = true -> doprocessMC || doprocessMCLight = true) ->
  Forall (fillRegistered (init doprocessMC doprocessMCLight))
    (events (fillHistograms ext cfg IsMC IsMix collision dTracks1 dTracks2)).
Proof.
  intros Hflag.
  apply (fillHistograms_always (fillRegistered (init doprocessMC doprocessMCLight))).
  intros trk1 trk2 _ _. unfold pairBody, fill. cbv zeta.
  walk2 ltac:(registry_tac doprocessMC doprocessMCLight).
  apply always_for_each. intros bTrack _.
  apply bachelorBody_registered. exact Hflag.
Qed.

Lemma X13_fills_are_registered_witness :
  Forall (fillRegistered (init true false))
    (events (fillHistograms extQ cfgDefault true false collision mcTracks
               mcTracks)).
Proof.
  apply (X13_fills_are_registered true false extQ cfgDefault true false
           collision mcTracks mcTracks).
  intros _. reflexivity.
Defined.


(** **** Categories *)

Ltac not_this_histogram :=
  let Hh := fresh "Hh" in intros Hh; vm_compute in Hh; discriminate Hh.

Ltac bool_facts :=
  repeat match goal with
    | H : (_ || _) = false |- _ => apply orb_false_iff in H; destruct H
    | H : negb _ = false |- _ => apply negb_false_iff in H
    | H : negb _ = true |- _ => apply negb_true_iff in H
    end.

Lemma k1Type_range IsMix bTrack trk2 : 1 <= k1Type IsMix bTrack trk2 <= 8.
Proof.
  unfold k1Type.
  destruct (Track.sign bTrack >? 0), (Track.sign trk2 >? 0), IsMix;
    vm_compute; split; discriminate.
Qed.

Ltac tag_tac :=
  unfold tagged; cbn [hist combo values];
  repeat split;
  first
    [ not_this_histogram
    | intros _; do 4 eexists; split; [reflexivity|];
      split; [|apply k1Type_range];
      unfold k1Type; bool_facts; subst;
      repeat match goal with H : _ = _ |- _ => rewrite H end; reflexivity
    | intros _; do 3 eexists; split; [reflexivity|];
      unfold k892Type; reflexivity
    | intros _; do 3 eexists; split; [reflexivity|];
      bool_facts; subst;
      repeat match goal with H : _ = _ |- _ => rewrite H end; reflexivity ].

Lemma bachelorBody_tagged ext cfg IsMC IsMix collision
    trk1 trk2 isTrk1hasTOF isK892Anti lDecayDaughter1 lResonanceK892 bTrack :
  isK892Anti = (Track.sign trk2 >? 0) ->
  always (tagged IsMix)
    (bachelorBody ext cfg IsMC IsMix collision trk1 trk2 isTrk1hasTOF
       isK892Anti lDecayDaughter1 lResonanceK892 bTrack).
Proof.
  intros HA. unfold bachelorBody, fill. cbv zeta.
  walk2 tag_tac.
Qed.

(** X14. The first value of every fill of THnK1invmass is the category
    that the signs give: Pos or Neg after the bachelor's sign, Anti or
    Matter after the kaon's being positive or not, and the Mix variant
    exactly in the mixed instance; it lies between 1 and 8.  The first
    value of a fill of THnK892invmass is Anti exactly for a positive kaon.
    The quick check k1invmass is filled only when one of bachelor and kaon
    is positive and the other is not. *)
Theorem X14_category_tags ext cfg (IsMC IsMix : bool)
    (collision : Collision.t) (dTracks1 dTracks2 : list Track.t) :
  Forall (tagged IsMix)
    (events (fillHistograms ext cfg IsMC IsMix collision dTracks1 dTracks2)).
Proof.
  apply (fillHistograms_always (tagged IsMix)).
  intros trk1 trk2 _ _. unfold pairBody, fill. cbv zeta.
  rewrite !if_true_false.
  walk2 tag_tac.
  apply always_for_each. intros bTrack _.
  apply bachelorBody_tagged. reflexivity.
Qed.


(** **** Event mixing *)

Ltac mixed_tac IsMC :=
  cbn [hist]; unfold mixedHistograms;
  first
    [ discriminate
    | solve [cbn [app In]; auto]
    | match goal with
      | H : IsMC = true |- _ => rewrite H; solve [cbn [app In]; auto 8]
      end ].

Lemma bachelorBody_mixed ext cfg IsMC collision
    trk1 trk2 isTrk1hasTOF isK892Anti lDecayDaughter1 lResonanceK892 bTrack :
  always (fun f => In (hist f) (mixedHistograms IsMC))
    (bachelorBody ext cfg IsMC true collision trk1 trk2 isTrk1hasTOF
       isK892Anti lDecayDaughter1 lResonanceK892 bTrack).
Proof.
  unfold bachelorBody, fill. cbv zeta. cbn [negb]. cbv iota.
  walk2 ltac:(mixed_tac IsMC).
Qed.

(** X15. The mixed instance of [fillHistograms] fills k1invmass and
    THnK1invmass only (and the four reconstructed-MC histograms when
    [IsMC] is set too): no QA histogram and no K(892)0 spectrum is filled
    from mixed events. *)
Theorem X15_mixing_fills_k1_only ext cfg (IsMC : bool)
    (collision : Collision.t) (dTracks1 dTracks2 : list Track.t) :
  Forall (fun f => In (hist f) (mixedHistograms IsMC))
    (events (fillHistograms ext cfg IsMC true collision dTracks1 dTracks2)).
Proof.
  apply (fillHistograms_always (fun f => In (hist f) (mixedHistograms IsMC))).
  intros trk1 trk2 _ _. unfold pairBody, fill. cbv zeta. cbn [negb].
  walk2 ltac:(mixed_tac IsMC).
  apply always_for_each. intros bTrack _.
  apply bachelorBody_mixed.
Qed.

(** **** Mass and rapidity windows *)

Ltac window_tac :=
  unfold insideWindows; cbn [combo hist];
  first
    [ exact I
    | split; [assumption|];
      first
        [ not_this_histogram
        | intros _; bool_facts;
          unfold lResonanceK1, K1Init.lResonanceK892, tempPiPi;
          repeat split; assumption ] ].

Lemma bachelorBody_windows ext cfg IsMC IsMix collision
    trk1 trk2 isTrk1hasTOF isK892Anti bTrack :
  Qgtb (Qabs (M ext (lResonanceK892 ext trk1 trk2) - massK892 ext))
       (cK892masswindow cfg) = false ->
  always (insideWindows ext cfg)
    (bachelorBody ext cfg IsMC IsMix collision trk1 trk2 isTrk1hasTOF
       isK892Anti
       (SetXYZM ext (Track.px trk1) (Track.py trk1) (Track.pz trk1) (massPi ext))
       (lResonanceK892 ext trk1 trk2) bTrack).
Proof.
  intros Hw. unfold bachelorBody, fill. cbv zeta.
  walk2 window_tac.
Qed.

(** X16. Every fill made inside the bachelor loop is for a pair whose mass
    is not farther than [cK892masswindow] from the K(892)0 mass, and every
    fill of a K1 spectrum (k1invmass, THnK1invmass and the reconstructed-MC
    histograms) is moreover for a K1 of rapidity within [cK1MinRap,
    cK1MaxRap] and a pion pair of mass within [cPiPiMin, cPiPiMax]. *)
Theorem X16_k1_inside_windows ext cfg (IsMC IsMix : bool)
    (collision : Collision.t) (dTracks1 dTracks2 : list Track.t) :
  Forall (insideWindows ext cfg)
    (events (fillHistograms ext cfg IsMC IsMix collision dTracks1 dTracks2)).
Proof.
  apply (fillHistograms_always (insideWindows ext cfg)).
  intros trk1 trk2 _ _. unfold pairBody, fill. cbv zeta.
  walk2 window_tac.
  apply always_for_each. intros bTrack _.
  apply bachelorBody_windows. assumption.
Qed.

(** **** Particle identification *)

Lemma pion_selected ext cfg trk1 (a : bool) :
  negb (if hasTOF ext trk1
           && Qgtb (Qabs (if hasTOF ext trk1 then Track.tofNSigmaPi trk1
                          else (-999)%Q)) (cMaxTOFnSigmaPion cfg)
        then false
        else if Qgtb (Qabs (Track.tpcNSigmaPi trk1)) (cMaxTPCnSigmaPion cfg)
             then false else true)
  || negb a = false ->
  pionPID ext cfg trk1 = true /\ a = true.
Proof.
  unfold pionPID.
  destruct (hasTOF ext trk1), a; cbn [negb andb orb];
    destruct (Qgtb (Qabs (Track.tpcNSigmaPi trk1)) (cMaxTPCnSigmaPion cfg));
    try destruct (Qgtb (Qabs (Track.tofNSigmaPi trk1)) (cMaxTOFnSigmaPion cfg));
    cbn [negb andb orb]; intros H; try discriminate H; split; reflexivity.
Qed.

Lemma bachelor_selected ext cfg bTrack :
  negb (if negb (cDoTOFPID cfg =? 0) && (if hasTOF ext bTrack then true else false)
           && Qgtb (Qabs (if negb (cDoTOFPID cfg =? 0)
                             && (if hasTOF ext bTrack then true else false)
                          then Track.tofNSigmaPi bTrack else (-99)%Q))
                (cMaxTOFnSigmaPion_bach cfg)
        then false
        else if Qgtb (Qabs (Track.tpcNSigmaPi bTrack)) (cMaxTPCnSigmaPion_bach cfg)
             then false else true) = false ->
  bachelorPID ext cfg bTrack = true.
Proof.
  unfold bachelorPID.
  destruct (hasTOF ext bTrack), (cDoTOFPID cfg =? 0); cbn [negb andb];
    destruct (Qgtb (Qabs (Track.tpcNSigmaPi bTrack)) (cMaxTPCnSigmaPion_bach cfg));
    try destruct (Qgtb (Qabs (Track.tofNSigmaPi bTrack))
                    (cMaxTOFnSigmaPion_bach cfg));
    cbn [negb andb]; intros H; try discriminate H; reflexivity.
Qed.

Ltac pid_tac :=
  unfold identified; cbn [hist combo];
  first
    [ not_this_histogram
    | intros _; repeat split;
      first [assumption | apply bachelor_selected; assumption] ].

Lemma bachelorBody_identified ext cfg IsMC IsMix collision
    trk1 trk2 isTrk1hasTOF isK892Anti lDecayDaughter1 lResonanceK892 bTrack :
  pionPID ext cfg trk1 = true -> kaonAccepted ext cfg trk2 ->
  always (identified ext cfg)
    (bachelorBody ext cfg IsMC IsMix collision trk1 trk2 isTrk1hasTOF
       isK892Anti lDecayDaughter1 lResonanceK892 bTrack).
Proof.
  intros H1 H2. unfold bachelorBody, fill. cbv zeta.
  walk2 pid_tac.
Qed.

(** X17. Every fill of [fillHistograms] outside the QAbefore directory is
    for a pion within the TPC cut (and the TOF cut when it has TOF) and a
    kaon that the breakpoint loops accepted; inside the bachelor loop it is
    also for a bachelor within its TPC cut, and within its TOF cut when
    [cDoTOFPID] is nonzero and the bachelor has TOF. *)
Theorem X17_selected_rows_are_identified ext cfg (IsMC IsMix : bool)
    (collision : Collision.t) (dTracks1 dTracks2 : list Track.t) :
  Forall (identified ext cfg)
    (events (fillHistograms ext cfg IsMC IsMix collision dTracks1 dTracks2)).
Proof.
  apply (fillHistograms_always (identified ext cfg)).
  intros trk1 trk2 _ _. unfold pairBody, fill. cbv zeta.
  rewrite !if_true_false.
  apply always_guard; intros Hidx; cbv beta.
  apply always_guard; intros Hsign; cbv beta.
  apply always_guard; intros Hcut1; cbv beta.
  apply always_guard; intros Hcut2; cbv beta.
  apply always_bind_val; [apply always_silent, kaonPID_silent|].
  intros a Ha.
  apply always_bind; [walk2 pid_tac|]. intros _.
  apply always_guard; intros Hsel; cbv beta.
  apply pion_selected in Hsel. destruct Hsel as [Hpi ->].
  assert (Hka : kaonAccepted ext cfg trk2) by exact Ha.
  walk2 pid_tac.
  apply always_for_each. intros bTrack _.
  apply bachelorBody_identified; assumption.
Qed.

(** **** Truth matching *)

Ltac truth_facts :=
  bool_facts;
  repeat match goal with
    | H : (_ =? _) = true |- _ => apply Z.eqb_eq in H
    end.

Ltac truth_tac :=
  unfold truthMatched; cbn [hist combo];
  split;
  first
    [ not_this_histogram
    | intros _; truth_facts; split; [assumption|];
      do 3 eexists; split; [reflexivity|];
      unfold pairTruth, bachelorTruth; repeat split; assumption ].

Lemma bachelorBody_truthMatched ext cfg IsMC IsMix collision
    trk1 trk2 isTrk1hasTOF isK892Anti lDecayDaughter1 lResonanceK892 bTrack :
  always (truthMatched ext IsMC)
    (bachelorBody ext cfg IsMC IsMix collision trk1 trk2 isTrk1hasTOF
       isK892Anti lDecayDaughter1 lResonanceK892 bTrack).
Proof.
  unfold bachelorBody, fill. cbv zeta.
  walk2 truth_tac.
Qed.

(** X18. The reconstructed-MC histograms are filled only in the MC
    instance and only for truth-matched rows: hReconK892pt for a pion and
    a kaon by their codes, with the same mother index and a mother of code
    313; hReconK1pt, THnK1invmassMC and QAMCafter/InvMass_piK_pipi for such
    a pair with a bachelor that is a pion by its code and has a mother of
    code 10323. *)
Theorem X18_recon_fills_are_truth_matched ext cfg (IsMC IsMix : bool)
    (collision : Collision.t) (dTracks1 dTracks2 : list Track.t) :
  Forall (truthMatched ext IsMC)
    (events (fillHistograms ext cfg IsMC IsMix collision dTracks1 dTracks2)).
Proof.
  apply (fillHistograms_always (truthMatched ext IsMC)).
  intros trk1 trk2 _ _. unfold pairBody, fill. cbv zeta.
  walk2 truth_tac.
  apply always_for_each. intros bTrack _.
  apply bachelorBody_truthMatched.
Qed.


(** **** Inputs that give nothing *)

Lemma for_each_all_exit {E A} (l : list A) (body : A -> Run E unit unit) :
  (forall a, In a l -> body a = ([], Exit tt)) ->
  for_each (R := unit) l body = ([], Next tt).
Proof.
  induction l as [|a l IH]; intros H; [reflexivity|].
  rewrite for_each_cons, (H a (or_introl eq_refl)), IH; [reflexivity|].
  intros a' Ha'. apply H. right; exact Ha'.
Qed.

(** X19. When any two rows of [dTracks2] have the same index or signs of
    positive product (an empty list, a single row, rows all positive or
    all negative), [fillHistograms] fills nothing at all and ends
    normally, whatever the other cuts and whatever [dTracks1]. *)
Theorem X19_no_opposite_pair_no_fill ext cfg (IsMC IsMix : bool)
    (collision : Collision.t) (dTracks1 dTracks2 : list Track.t) :
  (forall trk1 trk2, In trk1 dTracks2 -> In trk2 dTracks2 ->
     Track.index trk1 = Track.index trk2
     \/ 0 < Track.sign trk1 * Track.sign trk2) ->
  fillHistograms ext cfg IsMC IsMix collision dTracks1 dTracks2 = ([], Next tt).
Proof.
  intros H. unfold fillHistograms, CombinationsFullIndexPolicy.
  apply for_each_all_exit. intros [trk1 trk2] Hin.
  apply in_prod_iff in Hin. destruct Hin as [H1 H2].
  unfold pairBody.
  destruct (Track.index trk1 =? Track.index trk2) eqn:Eidx; [reflexivity|].
  destruct (H trk1 trk2 H1 H2) as [Hi|Hs].
  - apply Z.eqb_neq in Eidx. contradiction.
  - assert (Es : (Track.sign trk1 * Track.sign trk2 >? 0) = true)
      by (rewrite Z.gtb_ltb; apply Z.ltb_lt; exact Hs).
    cbn [when bind pure app]. rewrite Es. reflexivity.
Qed.

Lemma X19_no_opposite_pair_no_fill_witness :
  fillHistograms extQ cfgDefault false false collision tracks
    [track 0 1; track 2 1]
  = ([], Next tt).
Proof.
  apply (X19_no_opposite_pair_no_fill extQ cfgDefault false false collision
           tracks [track 0 1; track 2 1]).
  intros trk1 trk2 [<-|[<-|[]]] [<-|[<-|[]]]; cbn; lia.
Defined.

(** **** The TOF lists beyond the TPC length *)

Lemma static_cast_int_le z : 0 <= z -> static_cast_int z <= z.
Proof.
  intros Hz. unfold static_cast_int.
  pose proof (Z.mod_le (z + 2 ^ 31) (2 ^ 32)). lia.
Qed.

Lemma nth_error_firstn_lt {A} (n : nat) : forall (l : list A) (k : nat),
  (k < n)%nat -> nth_error (firstn n l) k = nth_error l k.
Proof.
  induction n as [|n IH]; intros l k Hk; [lia|].
  destruct l as [|x l]; [reflexivity|].
  destruct k as [|k]; [reflexivity|].
  cbn [firstn nth_error]. apply IH. lia.
Qed.

Lemma at_firstn {E R} (n : nat) (v : list Q) (i : Z) :
  (Z.to_nat i < n)%nat -> at_ (E := E) (R := R) (firstn n v) i = at_ v i.
Proof.
  intros H. unfold at_. destruct (i <? 0); [reflexivity|].
  rewrite nth_error_firstn_lt by exact H. reflexivity.
Qed.

Lemma for_upto_firstn {R} n vI vC pt ns count : forall i s,
  (Z.to_nat i + count <= n)%nat -> 0 <= i ->
  for_upto (R := R) count i (breakpointBody (firstn n vI) (firstn n vC) pt ns) s
  = for_upto count i (breakpointBody vI vC pt ns) s.
Proof.
  induction count as [|c IH]; intros i s Hn Hi; [reflexivity|].
  cbn [for_upto].
  assert (Hb : breakpointBody (R := R) (firstn n vI) (firstn n vC) pt ns i s
               = breakpointBody vI vC pt ns i s).
  { unfold breakpointBody. rewrite !at_firstn by lia. reflexivity. }
  rewrite Hb. destruct (breakpointBody vI vC pt ns i s) as [l [b| |]];
    try reflexivity.
  cbn [bind]. rewrite IH by lia. reflexivity.
Qed.

Lemma kaonPID_truncateTOF {R} cfg pt nsTPC hasTOF nsTOF sel :
  kaonPID (R := R) (truncateTOF cfg) pt nsTPC hasTOF nsTOF sel
  = kaonPID cfg pt nsTPC hasTOF nsTOF sel.
Proof.
  rewrite !kaonPID_unfold.
  change (kaonTPCPID (R := R) (truncateTOF cfg) pt nsTPC sel)
    with (kaonTPCPID (R := R) cfg pt nsTPC sel).
  destruct (kaonTPCPID cfg pt nsTPC sel) as [l [b| |]]; try reflexivity.
  cbn [bind]. destruct hasTOF; [|reflexivity].
  rewrite !kaonTOFPID_unfold.
  change (lengthOfkaonTPCPIDpTintv (truncateTOF cfg))
    with (lengthOfkaonTPCPIDpTintv cfg).
  destruct (lengthOfkaonTPCPIDpTintv cfg >? 0); [|reflexivity].
  cbn [kaonTOFPIDpTintv kaonTOFPIDcuts truncateTOF].
  rewrite for_upto_firstn; [reflexivity| |lia].
  cbn [Z.to_nat Nat.add]. unfold lengthOfkaonTPCPIDpTintv, vKaonTPCPIDpTintv.
  pose proof (static_cast_int_le
                (Z.of_nat (List.length (kaonTPCPIDpTintv cfg)))). lia.
Qed.

Lemma for_each_ext {E R A} (l : list A) (body body' : A -> Run E unit unit) :
  (forall a, body a = body' a) ->
  for_each (R := R) l body = for_each l body'.
Proof.
  intros H. induction l as [|a l IH]; [reflexivity|].
  rewrite !for_each_cons, H, IH. reflexivity.
Qed.

(** X20. The TOF loop runs over the length of the TPC pT list: the entries
    of [kaonTOFPIDpTintv] and [kaonTOFPIDcuts] beyond that length are never
    read.  Cutting both TOF lists at that length changes neither the kaon
    gate nor anything [fillHistograms] does; with an empty TPC pT list no
    kaon cut is applied at all, TOF included. *)
Theorem X20_tof_lists_read_up_to_tpc_length ext cfg (IsMC IsMix : bool)
    (collision : Collision.t) (dTracks1 dTracks2 : list Track.t)
    (trk2ptKa trk2NSigmaKaTPC : Q) (isTrk2hasTOF : bool) (tofNSigmaKa : Q)
    (isTrk2Selected : bool) :
  kaonPID (R := unit) (truncateTOF cfg) trk2ptKa trk2NSigmaKaTPC isTrk2hasTOF
    tofNSigmaKa isTrk2Selected
  = kaonPID cfg trk2ptKa trk2NSigmaKaTPC isTrk2hasTOF tofNSigmaKa isTrk2Selected
  /\ fillHistograms ext (truncateTOF cfg) IsMC IsMix collision dTracks1 dTracks2
     = fillHistograms ext cfg IsMC IsMix collision dTracks1 dTracks2
  /\ (kaonTPCPIDpTintv cfg = [] ->
      kaonPID (R := unit) cfg trk2ptKa trk2NSigmaKaTPC isTrk2hasTOF tofNSigmaKa
        isTrk2Selected = ([], Next isTrk2Selected)).
Proof.
  split; [apply kaonPID_truncateTOF|]. split.
  - unfold fillHistograms. apply for_each_ext. intros [trk1 trk2].
    unfold pairBody. rewrite kaonPID_truncateTOF. reflexivity.
  - intros H. rewrite kaonPID_unfold, kaonTPCPID_unfold.
    unfold lengthOfkaonTPCPIDpTintv, vKaonTPCPIDpTintv. rewrite H.
    change (static_cast_int (Z.of_nat (List.length (@nil Q))) >? 0) with false.
    cbn [bind pure app]. destruct isTrk2hasTOF; [|reflexivity].
    rewrite kaonTOFPID_unfold.
    unfold lengthOfkaonTPCPIDpTintv, vKaonTPCPIDpTintv. rewrite H.
    reflexivity.
Qed.

End K1Extra.
